(** * TimeSeriesDBSCAN: the distance-matrix-backed DBSCAN adapter

    A shallow embedding of [sktime/clustering/dbscan.py].  The estimator is a
    Python object with a dictionary of attributes and a dictionary of dynamic
    tags; objects live in a store indexed by their identity, and methods are
    computations in a state-and-exception monad over that store.  Calls that
    leave the adapter (the distance, sklearn's DBSCAN, the warning) are
    recorded in a trace. *)

From Stdlib Require Import ZArith QArith.
From stdpp Require Import base strings gmap list.

Close Scope Q_scope.
Open Scope string_scope.
Open Scope list_scope.

(** ** Python values and objects *)

(** Object identity, what [id(x)] returns and what [x is y] compares. *)
Definition loc := positive.

Inductive exn :=
| TypeError
| AttributeError (name : string)
| NotFittedError
| Raised (what : string).

Inductive res (A : Type) :=
| Ok (a : A)
| Err (e : exn).
Arguments Ok {A} a.
Arguments Err {A} e.

(** A series is a sequence of time points, each a row of variables with
    possibly missing entries; a panel is an ordered collection of instances,
    each under its instance index. *)
Definition Series := list (list (option Q)).
Definition Panel := list (nat * Series).

(** What a distance returns.  Nothing constrains the rows: the type has
    ragged, asymmetric and negative matrices too. *)
Definition Matrix := list (list Q).

Inductive tag_value :=
| TagBool (b : bool)
| TagStr (s : string)
| TagList (l : list string).

Inductive value :=
| VNone
| VBool (b : bool)
| VInt (z : Z)
| VFloat (q : Q)
| VStr (s : string)
| VIntArray (a : list Z)
| VArray (m : Matrix)
| VRef (l : loc)
  (* an instance of BasePairwiseTransformerPanel: its tags and its __call__ *)
| VPairwise (tags : gmap string tag_value) (f : Panel → res Matrix)
  (* any other callable taking a panel *)
| VCallable (f : Panel → res Matrix).

Record instance := Instance {
  attrs : gmap string value;
  tags_dynamic : gmap string tag_value
}.

Inductive object :=
| OPanel (p : Panel)
| OInstance (o : instance).

Inductive event :=
| EvCall (callee : value) (X : loc)
| EvDBSCAN (obj : loc) (kwargs : gmap string value)
| EvDBSCAN_fit (obj : loc) (X : Matrix)
| EvWarn (msg : string) (obj : loc).

Record state := State {
  heap : gmap loc object;
  trace : list event
}.

(** ** The monad: a store threaded through, exceptions as results.
    What was written before an exception stays written. *)

Definition M (A : Type) := state → state * res A.

Definition ret {A} (a : A) : M A := λ σ, (σ, Ok a).
Definition raise {A} (e : exn) : M A := λ σ, (σ, Err e).
Definition bind {A B} (m : M A) (k : A → M B) : M B :=
  λ σ, match m σ with
       | (σ', Ok a) => k a σ'
       | (σ', Err e) => (σ', Err e)
       end.

Global Instance M_ret : MRet M := @ret.
Global Instance M_bind : MBind M := λ A B k m, bind m k.

Fixpoint for_each {A} (l : list A) (body : A → M unit) : M unit :=
  match l with
  | [] => ret tt
  | x :: l' => body x ;; for_each l' body
  end.

(** [{key: f(key) for key in keys}] *)
Fixpoint dict_comp (keys : list string) (f : string → M value)
  : M (gmap string value) :=
  match keys with
  | [] => ret ∅
  | key :: keys' =>
      v ← f key;
      d ← dict_comp keys' f;
      ret (<[key := v]> d)
  end.

Definition instance_at (σ : state) (o : loc) : option instance :=
  match heap σ !! o with
  | Some (OInstance i) => Some i
  | _ => None
  end.

Definition panel_at (σ : state) (o : loc) : option Panel :=
  match heap σ !! o with
  | Some (OPanel p) => Some p
  | _ => None
  end.

Definition attr (σ : state) (o : loc) (name : string) : option value :=
  i ← instance_at σ o; attrs i !! name.

Definition getattr (o : loc) (name : string) : M value :=
  λ σ, match attr σ o name with
       | Some v => (σ, Ok v)
       | None => (σ, Err (AttributeError name))
       end.

Definition hasattr (o : loc) (name : string) : M bool :=
  λ σ, (σ, Ok (bool_decide (is_Some (attr σ o name)))).

Definition setattr (o : loc) (name : string) (v : value) : M unit :=
  λ σ, match instance_at σ o with
       | Some i =>
           (State (<[o := OInstance (Instance (<[name := v]> (attrs i))
                                              (tags_dynamic i))]> (heap σ))
                  (trace σ), Ok tt)
       | None => (σ, Err (AttributeError name))
       end.

(** Attribute access through a value, as in [self.dbscan_.labels_]. *)
Definition getattr_v (v : value) (name : string) : M value :=
  match v with
  | VRef o => getattr o name
  | _ => raise (AttributeError name)
  end.

Definition hasattr_v (v : value) (name : string) : M bool :=
  match v with
  | VRef o => hasattr o name
  | _ => ret false
  end.

(** A new object gets an identity no live object has. *)
Definition alloc (ob : object) : M loc :=
  λ σ, let o := fresh (dom (heap σ)) in
       (State (<[o := ob]> (heap σ)) (trace σ), Ok o).

Definition emit (ev : event) : M unit :=
  λ σ, (State (heap σ) (trace σ ++ [ev]), Ok tt).

(** [x is y] *)
Definition py_is (x y : value) : bool :=
  match x, y with
  | VRef a, VRef b => bool_decide (a = b)
  | VNone, VNone => true
  | _, _ => false
  end.

(** [callee(X)].  A string, a number, an array are not callable. *)
Definition apply_to_panel (f : Panel → res Matrix) (X : loc) : M Matrix :=
  λ σ, match panel_at σ X with
       | Some p => (σ, f p)
       | None => (σ, Err TypeError)
       end.

(** What Python's [callable] answers on a value. *)
Definition py_callable (v : value) : bool :=
  match v with
  | VPairwise _ _ | VCallable _ => true
  | _ => false
  end.

Definition py_call (callee : value) (X : loc) : M Matrix :=
  match callee with
  | VPairwise _ f | VCallable f =>
      emit (EvCall callee X) ;;
      apply_to_panel f X
  | _ => raise TypeError
  end.

(** What the evaluation of [callee(X)] adds to the trace: the call, when
    there is something to call. *)
Definition call_events (callee : value) (X : loc) : list event :=
  if py_callable callee then [EvCall callee X] else [].

Definition isinstance_str (v : value) : bool :=
  match v with VStr _ => true | _ => false end.

Definition isinstance_BasePairwiseTransformerPanel (v : value) : bool :=
  match v with VPairwise _ _ => true | _ => false end.

Definition get_instance (o : loc) : M instance :=
  λ σ, match instance_at σ o with
       | Some i => (σ, Ok i)
       | None => (σ, Err TypeError)
       end.

Definition put_instance (o : loc) (i : instance) : M unit :=
  λ σ, (State (<[o := OInstance i]> (heap σ)) (trace σ), Ok tt).

Definition get_panel (o : loc) : M Panel :=
  λ σ, match panel_at σ o with
       | Some p => (σ, Ok p)
       | None => (σ, Err TypeError)
       end.

(** ** What the module imports from the rest of the framework *)

(** Modelled from the spec: the tag mechanism of the base object class
    ([get_tag], [set_tags], [clone_tags]), which this module inherits and
    does not define.  The spec describes it as a mutable tag dictionary on
    the instance, altered after construction, whose entries take precedence
    over the class's declared [_tags]; cloning propagates the flags the
    Provider exposes. *)
Definition set_tags (self : loc) (d : gmap string tag_value) : M unit :=
  i ← get_instance self;
  put_instance self (Instance (attrs i) (d ∪ tags_dynamic i)).

(** Modelled from the spec: the flags a Provider exposes among the names
    asked for, as [clone_tags] of the base object class picks them. *)
Definition select_tags (tags : gmap string tag_value)
    (tag_names : list string) : gmap string tag_value :=
  foldr (λ key d, match tags !! key with
                  | Some v => <[key := v]> d
                  | None => d
                  end) ∅ tag_names.

(** Modelled from the spec: [clone_tags] of the base object class, which
    propagates to the adapter the named flags that the Provider exposes. *)
Definition clone_tags (self : loc) (estimator : value)
    (tag_names : list string) : M unit :=
  match estimator with
  | VPairwise tags _ => set_tags self (select_tags tags tag_names)
  | _ => raise (AttributeError "get_tags")
  end.

(** Modelled from the spec: [BaseClusterer.__init__], reached through
    [super().__init__()]: the estimator starts Unfitted, with no tag altered. *)
Definition BaseClusterer__init__ (self : loc) : M unit :=
  i ← get_instance self;
  put_instance self (Instance (attrs i) ∅) ;;
  setattr self "_is_fitted" (VBool false).

(** Modelled from the spec: [update_data] of [sktime.datatypes].  The merged
    dataset has the fit data first, unchanged, then the new instances that
    are not already present in the fit data, in their order. *)
Definition merge_panels (X X_new : Panel) : Panel :=
  X ++ filter (λ inst, inst.1 ∉ X.*1) X_new.

(** Modelled from the spec: [update_data] as called, on the stored fit data
    and the new panel; the merged dataset is a new object. *)
Definition update_data (X : value) (X_new : loc) : M loc :=
  match X with
  | VRef x =>
      p ← get_panel x;
      q ← get_panel X_new;
      alloc (OPanel (merge_panels p q))
  | _ => raise TypeError
  end.

(** Modelled from the spec: [warn] of [sktime.utils.warnings], which emits
    a warning the user sees. *)
Definition warn (msg : string) (obj : loc) : M unit :=
  emit (EvWarn msg obj).

(** Modelled from the spec: the fitted-state guard of the base class.
    An estimator is fitted once a [fit] has succeeded on it. *)
Definition check_is_fitted (self : loc) : M unit :=
  b ← hasattr self "_is_fitted";
  if b : bool then
    f ← getattr self "_is_fitted";
    match f with
    | VBool true => ret tt
    | _ => raise NotFittedError
    end
  else raise NotFittedError.

(** ** The adapter *)

Record Config := {
  distance : value;
  eps : value;
  min_samples : value;
  algorithm : value;
  leaf_size : value;
  n_jobs : value
}.

(** The defaults of the signature of [__init__]. *)
Definition default_config (distance : value) : Config :=
  {| distance := distance;
     eps := VFloat (1 # 2);
     min_samples := VInt 5;
     algorithm := VStr "auto";
     leaf_size := VInt 30;
     n_jobs := VNone |}.

Definition _tags : gmap string tag_value :=
  list_to_map
    [ ("authors", TagStr "fkiraly");
      ("capability:multivariate", TagBool true);
      ("capability:unequal_length", TagBool true);
      ("capability:missing_values", TagBool true);
      ("X_inner_mtype", TagList ["pd-multiindex"; "numpy3D"]);
      ("capability:out_of_sample", TagBool false);
      ("capability:predict", TagBool true);
      ("capability:predict_proba", TagBool false);
      ("tests:core", TagBool true) ].

Definition DELEGATED_PARAMS : list string :=
  ["eps"; "min_samples"; "algorithm"; "leaf_size"; "n_jobs"].

Definition DELEGATED_FITTED_PARAMS : list string :=
  ["core_sample_indices_"; "components_ "; "labels_"].

(** Modelled from the spec: [get_tag] of the base object class, the tag
    altered on the instance if there is one, the class's declaration
    otherwise. *)
Definition get_tag (self : loc) (name : string) : M tag_value :=
  i ← get_instance self;
  match (tags_dynamic i ∪ _tags) !! name with
  | Some v => ret v
  | None => raise (Raised "ValueError")
  end.

Definition tags_to_clone : list string :=
  [ "capability:multivariate";
    "capability:unequal_length";
    "capability:missing_values" ].

Definition tags_to_set : gmap string tag_value :=
  list_to_map
    [ ("X_inner_mtype", TagStr "numpy3D");
      ("capability:unequal_length", TagBool false) ].

Definition __init__ (self : loc) (c : Config) : M unit :=
  setattr self "distance" (distance c) ;;
  setattr self "eps" (eps c) ;;
  setattr self "min_samples" (min_samples c) ;;
  setattr self "algorithm" (algorithm c) ;;
  setattr self "leaf_size" (leaf_size c) ;;
  setattr self "n_jobs" (n_jobs c) ;;
  BaseClusterer__init__ self ;;
  (if isinstance_BasePairwiseTransformerPanel (distance c)
   then clone_tags self (distance c) tags_to_clone
   else ret tt) ;;
  (if isinstance_str (distance c)
   then set_tags self tags_to_set
   else ret tt) ;;
  setattr self "dbscan_" VNone.

(** [TimeSeriesDBSCAN(distance, eps, ...)]: a new object, initialised. *)
Definition TimeSeriesDBSCAN (c : Config) : M loc :=
  self ← alloc (OInstance (Instance ∅ ∅));
  __init__ self c ;;
  ret self.

Section Adapter.

(** sklearn's DBSCAN is not part of this module.  [sklearn_fit params D]
    stands for what its [fit] computes from the constructor's parameters
    and the matrix: the fitted attributes it sets, or the exception it
    raises. *)
Variable sklearn_fit : gmap string value → Matrix → res (gmap string value).

(** The constructor of sklearn's DBSCAN, called with keyword arguments:
    the new object holds them as attributes. *)
Definition DBSCAN (kwargs : gmap string value) : M value :=
  o ← alloc (OInstance (Instance kwargs ∅));
  emit (EvDBSCAN o kwargs) ;;
  ret (VRef o).

(** [dbscan.fit(X=distmat)] *)
Definition DBSCAN_fit (dbscan : value) (distmat : Matrix) : M unit :=
  match dbscan with
  | VRef o =>
      i ← get_instance o;
      emit (EvDBSCAN_fit o distmat) ;;
      match sklearn_fit (attrs i) distmat with
      | Ok fitted =>
          put_instance o (Instance (fitted ∪ attrs i) (tags_dynamic i))
      | Err e => raise e
      end
  | _ => raise (AttributeError "fit")
  end.

Definition _fit (self X : loc) : M loc :=
  setattr self "_X" (VRef X) ;;
  distance ← getattr self "distance";
  distmat ← py_call distance X;
  deleg_param_dict ← dict_comp DELEGATED_PARAMS (getattr self);
  dbscan ← DBSCAN (<["metric" := VStr "precomputed"]> deleg_param_dict);
  setattr self "dbscan_" dbscan ;;
  dbscan_ ← getattr self "dbscan_";
  DBSCAN_fit dbscan_ distmat ;;
  for_each DELEGATED_FITTED_PARAMS (λ key,
    dbscan_ ← getattr self "dbscan_";
    b ← hasattr_v dbscan_ key;
    if b : bool then
      dbscan_ ← getattr self "dbscan_";
      v ← getattr_v dbscan_ key;
      setattr self key v
    else ret tt) ;;
  ret self.

(** Modelled from the spec: the public [fit] of the base class, which runs
    [_fit] and leaves the estimator Fitted, and returns it. *)
Definition fit (self X : loc) : M loc :=
  _fit self X ;;
  setattr self "_is_fitted" (VBool true) ;;
  ret self.

(** Modelled from the spec: [get_params] of the base object class, the
    configuration as the attributes of the estimator hold it. *)
Definition get_params (self : loc) : M Config :=
  distance ← getattr self "distance";
  eps ← getattr self "eps";
  min_samples ← getattr self "min_samples";
  algorithm ← getattr self "algorithm";
  leaf_size ← getattr self "leaf_size";
  n_jobs ← getattr self "n_jobs";
  ret (Build_Config distance eps min_samples algorithm leaf_size n_jobs).

(** Modelled from the spec: [clone] of the base object class, which
    constructs a new estimator from the parameters of this one. *)
Definition clone (self : loc) : M loc :=
  c ← get_params self;
  TimeSeriesDBSCAN c.

Definition refit_warning : string :=
  "sklearn and sktime DBSCAN estimators do not support different X " +:+
  "in fit and predict, but a new X was passed in predict. " +:+
  "Therefore, a clone of TimeSeriesDBSCAN will be fit, and results " +:+
  "returned, without updating the state of the fitted estimator.".

Definition _predict (self X : loc) : M value :=
  X_fit ← getattr self "_X";
  if py_is (VRef X) X_fit then
    getattr self "labels_"
  else
    all_X ← update_data X_fit X;
    warn refit_warning self ;;
    c ← clone self;
    c ← fit c all_X;
    getattr c "labels_".

(** Modelled from the spec: the public [predict] of the base class, which
    refuses an estimator that is not fitted and otherwise runs
    [_predict]. *)
Definition predict (self X : loc) : M value :=
  check_is_fitted self ;;
  _predict self X.

End Adapter.

(** ** Sample data: panels, distances, and stand-ins for sklearn *)

Definition series_a : Series := [[Some (1 # 1)%Q]; [Some (2 # 1)%Q]].
Definition series_b : Series := [[Some (1 # 1)%Q]; [Some (2 # 1)%Q]].
Definition series_c : Series := [[Some (9 # 1)%Q]; [None]].

Definition panel_ab : Panel := [(0, series_a); (1, series_b)].
Definition panel_bc : Panel := [(1, series_c); (2, series_c)].

(** A distance that puts every pair at distance zero. *)
Definition zero_dist (p : Panel) : res Matrix :=
  Ok (replicate (length p) (replicate (length p) (0 # 1)%Q)).

(** A distance whose output is not a distance matrix at all: ragged,
    negative, asymmetric, nonzero on the diagonal. *)
Definition ragged_matrix : Matrix :=
  [[(3 # 1)%Q; (-1 # 1)%Q]; [(7 # 1)%Q]].
Definition ragged_dist (p : Panel) : res Matrix := Ok ragged_matrix.

(** A stand-in for sklearn's fit that puts every row in cluster 0 and
    makes every row a core sample. *)
Definition one_cluster_fit (params : gmap string value) (D : Matrix)
  : res (gmap string value) :=
  Ok (list_to_map
        [ ("core_sample_indices_", VIntArray (Z.of_nat <$> seq 0 (length D)));
          ("components_", VArray D);
          ("labels_", VIntArray (replicate (length D) 0%Z)) ]).

(** A stand-in that sets the labels only. *)
Definition labels_only_fit (params : gmap string value) (D : Matrix)
  : res (gmap string value) :=
  Ok {[ "labels_" := VIntArray (replicate (length D) 0%Z) ]}.

Definition pairwise_tags_equal_length : gmap string tag_value :=
  list_to_map
    [ ("capability:multivariate", TagBool true);
      ("capability:unequal_length", TagBool false);
      ("capability:missing_values", TagBool false) ].

(** A store holding three panels: objects 1 and 2 are two objects with the
    same content, object 3 is a panel that shares instance 1 with them and
    brings instance 2. *)
Definition store0 : state :=
  State (<[1%positive := OPanel panel_ab]>
           (<[2%positive := OPanel panel_ab]>
              (<[3%positive := OPanel panel_bc]> ∅))) [].

(** ** Reading the store *)

(** The keyword arguments the delegate is built from, for a configuration. *)
Definition delegate_kwargs (c : Config) : gmap string value :=
  <["metric" := VStr "precomputed"]>
    (<["eps" := eps c]>
       (<["min_samples" := min_samples c]>
          (<["algorithm" := algorithm c]>
             (<["leaf_size" := leaf_size c]>
                (<["n_jobs" := n_jobs c]> ∅))))).

(** An attribute dictionary holds a configuration. *)
Definition holds_config (a : gmap string value) (c : Config) : Prop :=
  a !! "distance" = Some (distance c) ∧
  a !! "eps" = Some (eps c) ∧
  a !! "min_samples" = Some (min_samples c) ∧
  a !! "algorithm" = Some (algorithm c) ∧
  a !! "leaf_size" = Some (leaf_size c) ∧
  a !! "n_jobs" = Some (n_jobs c).

Definition has_config (σ : state) (self : loc) (c : Config) : Prop :=
  ∃ i, instance_at σ self = Some i ∧ holds_config (attrs i) c.

(** What [callee(X)] evaluates to, given what [X] denotes. *)
Definition applied (callee : value) (p : option Panel) : res Matrix :=
  match callee with
  | VPairwise _ f | VCallable f =>
      match p with
      | Some p => f p
      | None => Err TypeError
      end
  | _ => Err TypeError
  end.

(** The loop over the fitted attribute names, on dictionaries. *)
Definition copy_fitted (keys : list string) (src dst : gmap string value)
  : gmap string value :=
  foldl (λ acc key, match src !! key with
                    | Some v => <[key := v]> acc
                    | None => acc
                    end) dst keys.

(** The attributes and tags [__init__] leaves on an object. *)
Definition init_attrs (c : Config) (a : gmap string value)
  : gmap string value :=
  <["dbscan_" := VNone]>
    (<["_is_fitted" := VBool false]>
       (<["n_jobs" := n_jobs c]>
          (<["leaf_size" := leaf_size c]>
             (<["algorithm" := algorithm c]>
                (<["min_samples" := min_samples c]>
                   (<["eps" := eps c]>
                      (<["distance" := distance c]> a))))))).

Definition init_tags (d : value) : gmap string tag_value :=
  match d with
  | VPairwise tags _ => select_tags tags tags_to_clone ∪ ∅
  | VStr _ => tags_to_set ∪ ∅
  | _ => ∅
  end.

(** The calls of the distance recorded in a trace. *)
Definition distance_calls (t : list event) : list (value * loc) :=
  omap (λ ev, match ev with
              | EvCall callee X => Some (callee, X)
              | _ => None
              end) t.

(** What [_fit] does on an object [i] holding configuration [c], written
    out: the store it leaves and what it returns, by where it stops. *)
Definition fit_outcome
    (sklearn_fit : gmap string value → Matrix → res (gmap string value))
    (σ : state) (self X : loc) (i : instance) (c : Config)
  : state * res loc :=
  let t := tags_dynamic i in
  let a1 := <["_X" := VRef X]> (attrs i) in
  match applied (distance c) (panel_at σ X) with
  | Err e =>
      (State (<[self := OInstance (Instance a1 t)]> (heap σ))
             (trace σ ++ call_events (distance c) X), Err e)
  | Ok D =>
      let d := fresh (dom (heap σ)) in
      let kw := delegate_kwargs c in
      let a2 := <["dbscan_" := VRef d]> a1 in
      let tr := trace σ ++
                [EvCall (distance c) X; EvDBSCAN d kw; EvDBSCAN_fit d D] in
      match sklearn_fit kw D with
      | Err e =>
          (State (<[self := OInstance (Instance a2 t)]>
                    (<[d := OInstance (Instance kw ∅)]> (heap σ))) tr, Err e)
      | Ok fitted =>
          (State (<[self := OInstance
                      (Instance
                         (copy_fitted DELEGATED_FITTED_PARAMS (fitted ∪ kw) a2)
                         t)]>
                    (<[d := OInstance (Instance (fitted ∪ kw) ∅)]> (heap σ)))
                 tr, Ok self)
      end
  end.

(** The attributes the public [fit] may write on the estimator. *)
Definition fit_keys : list string :=
  ["_X"; "dbscan_"; "_is_fitted"] ++ DELEGATED_FITTED_PARAMS.

(** The life of one adapter: built with configuration [c], then any
    sequence of [fit] and [predict] calls on it, while the rest of the
    program may create objects.  The flag tells whether a [fit] has
    succeeded so far. *)
Inductive lifecycle
    (sklearn_fit : gmap string value → Matrix → res (gmap string value))
    (self : loc) (c : Config) : bool → state → Prop :=
| life_new σ0 σ :
    TimeSeriesDBSCAN c σ0 = (σ, Ok self) →
    lifecycle sklearn_fit self c false σ
| life_fit_ok b σ X σ' r :
    lifecycle sklearn_fit self c b σ →
    fit sklearn_fit self X σ = (σ', Ok r) →
    lifecycle sklearn_fit self c true σ'
| life_fit_err b σ X σ' e :
    lifecycle sklearn_fit self c b σ →
    fit sklearn_fit self X σ = (σ', Err e) →
    lifecycle sklearn_fit self c b σ'
| life_predict b σ X σ' r :
    lifecycle sklearn_fit self c b σ →
    predict sklearn_fit self X σ = (σ', r) →
    lifecycle sklearn_fit self c b σ'
| life_alloc b σ ob :
    lifecycle sklearn_fit self c b σ →
    lifecycle sklearn_fit self c b (alloc ob σ).1.

(** ** Calling the constructor with keyword arguments *)

Definition init_params : list string :=
  ["distance"; "eps"; "min_samples"; "algorithm"; "leaf_size"; "n_jobs"].

(** Binding keyword arguments to the signature of [__init__]: a keyword
    that is no parameter is refused, [distance] has no default and must be
    given, the other five fall back on their defaults. *)
Definition bind_arguments (kwargs : gmap string value) : res Config :=
  if forallb (λ kv, bool_decide (kv.1 ∈ init_params)) (map_to_list kwargs)
  then
    match kwargs !! "distance" with
    | Some d =>
        Ok {| distance := d;
              eps := default (VFloat (1 # 2)) (kwargs !! "eps");
              min_samples := default (VInt 5) (kwargs !! "min_samples");
              algorithm := default (VStr "auto") (kwargs !! "algorithm");
              leaf_size := default (VInt 30) (kwargs !! "leaf_size");
              n_jobs := default VNone (kwargs !! "n_jobs") |}
    | None => Err TypeError
    end
  else Err TypeError.

(** The constructor called on a dictionary of keyword arguments, as the
    test framework does with each entry of [get_test_params]. *)
Definition TimeSeriesDBSCAN_kwargs (kwargs : gmap string value) : M loc :=
  match bind_arguments kwargs with
  | Ok c => TimeSeriesDBSCAN c
  | Err e => raise e
  end.

Section TestParams.

(** The three distances the test parameters are built from come from
    [sktime.dists_kernels], which is not part of this module: the test
    instance of [AggrDist], and [DtwDist()] and [EditDist()]. *)
Variables AggrDist_test_instance DtwDist EditDist : value.

Definition get_test_params (parameter_set : string)
  : list (gmap string value) :=
  let dist := AggrDist_test_instance in
  let params1 : gmap string value := {[ "distance" := dist ]} in
  let params2 : gmap string value := {[ "distance" := DtwDist ]} in
  let params3 : gmap string value := {[ "distance" := EditDist ]} in
  [params1; params2; params3].

End TestParams.

(** ** More ways to read the store *)

(** The tags [__init__] may alter, by the kind of distance it is given. *)
Definition tags_touched (d : value) : list string :=
  if isinstance_BasePairwiseTransformerPanel d then tags_to_clone
  else if isinstance_str d then ["X_inner_mtype"; "capability:unequal_length"]
  else [].

(** What [get_tag] answers from the class's own declaration. *)
Definition class_tag (name : string) : res tag_value :=
  match _tags !! name with
  | Some v => Ok v
  | None => Err (Raised "ValueError")
  end.

(** ** More sample data *)

(** A distance that refuses panels with missing values, and puts every
    pair at distance zero otherwise. *)
Definition has_missing (p : Panel) : bool :=
  existsb (λ inst, existsb (λ row, existsb (λ x, bool_decide (x = None)) row)
                           inst.2) p.

Definition no_missing_dist (p : Panel) : res Matrix :=
  if has_missing p then Err (Raised "ValueError") else zero_dist p.

(** A stand-in for sklearn's fit that always raises. *)
Definition failing_fit (params : gmap string value) (D : Matrix)
  : res (gmap string value) :=
  Err (Raised "InvalidParameterError").

(** A stand-in that sets the core sample indices only, and no labels. *)
Definition core_only_fit (params : gmap string value) (D : Matrix)
  : res (gmap string value) :=
  Ok {[ "core_sample_indices_" := VIntArray [] ]}.

(** * Properties *)

(** ** The monad and the store *)

Lemma bind_ok {A B} (m : M A) (k : A → M B) σ σ' a :
  m σ = (σ', Ok a) → (m ≫= k) σ = k a σ'.
Proof. intros H. unfold mbind, M_bind, bind. by rewrite H. Qed.

Lemma bind_err {A B} (m : M A) (k : A → M B) σ σ' e :
  m σ = (σ', Err e) → (m ≫= k) σ = (σ', Err e).
Proof. intros H. unfold mbind, M_bind, bind. by rewrite H. Qed.

Lemma instance_at_insert_eq h t o i :
  instance_at (State (<[o := OInstance i]> h) t) o = Some i.
Proof. unfold instance_at; simpl. by rewrite lookup_insert_eq. Qed.

Lemma instance_at_insert_ne h t o o' ob :
  o ≠ o' →
  instance_at (State (<[o := ob]> h) t) o' = instance_at (State h t) o'.
Proof. intros. unfold instance_at; simpl. by rewrite lookup_insert_ne. Qed.

Lemma panel_at_insert_instance h t t' o i i' X :
  instance_at (State h t) o = Some i →
  panel_at (State (<[o := OInstance i']> h) t') X = panel_at (State h t) X.
Proof.
  unfold instance_at, panel_at; simpl. intros H.
  destruct (decide (o = X)) as [->|].
  - rewrite lookup_insert_eq. destruct (h !! X) as [[]|]; done.
  - by rewrite lookup_insert_ne.
Qed.

Lemma panel_at_insert_ne h t o ob X :
  o ≠ X → panel_at (State (<[o := ob]> h) t) X = panel_at (State h t) X.
Proof. intros. unfold panel_at; simpl. by rewrite lookup_insert_ne. Qed.

Lemma attr_insert_eq h t o i name :
  attr (State (<[o := OInstance i]> h) t) o name = attrs i !! name.
Proof. unfold attr. by rewrite instance_at_insert_eq. Qed.

Lemma attr_insert_ne h t o o' ob name :
  o ≠ o' → attr (State (<[o := ob]> h) t) o' name = attr (State h t) o' name.
Proof. intros. unfold attr. by rewrite instance_at_insert_ne. Qed.

Lemma attr_instance σ o i name :
  instance_at σ o = Some i → attr σ o name = attrs i !! name.
Proof. intros H. unfold attr. by rewrite H. Qed.

Lemma getattr_ok σ o name v :
  attr σ o name = Some v → getattr o name σ = (σ, Ok v).
Proof. intros H. unfold getattr. by rewrite H. Qed.

Lemma getattr_err σ o name :
  attr σ o name = None → getattr o name σ = (σ, Err (AttributeError name)).
Proof. intros H. unfold getattr. by rewrite H. Qed.

Lemma setattr_ok σ o i name v :
  instance_at σ o = Some i →
  setattr o name v σ =
    (State (<[o := OInstance (Instance (<[name := v]> (attrs i))
                                       (tags_dynamic i))]> (heap σ))
           (trace σ), Ok tt).
Proof. intros H. unfold setattr. by rewrite H. Qed.

Lemma get_instance_ok σ o i :
  instance_at σ o = Some i → get_instance o σ = (σ, Ok i).
Proof. intros H. unfold get_instance. by rewrite H. Qed.

Lemma fresh_not_live (h : gmap loc object) : h !! fresh (dom h) = None.
Proof. apply not_elem_of_dom, is_fresh. Qed.

Lemma fresh_ne_live (h : gmap loc object) o :
  is_Some (h !! o) → fresh (dom h) ≠ o.
Proof. intros [x Hx] <-. by rewrite fresh_not_live in Hx. Qed.

Lemma instance_is_live σ o i : instance_at σ o = Some i → is_Some (heap σ !! o).
Proof. unfold instance_at. destruct (heap σ !! o); [eauto | done]. Qed.

Lemma dom_insert_live (h : gmap loc object) o ob :
  is_Some (h !! o) → dom (<[o := ob]> h) = dom h.
Proof.
  intros H. rewrite dom_insert_L. apply elem_of_dom in H.
  apply leibniz_equiv. intros x. rewrite elem_of_union, elem_of_singleton.
  split; [by intros [->|] | by right].
Qed.

(** ** Construction *)

Lemma set_tags_ok σ self i d :
  instance_at σ self = Some i →
  set_tags self d σ =
    (State (<[self := OInstance (Instance (attrs i) (d ∪ tags_dynamic i))]>
              (heap σ)) (trace σ), Ok tt).
Proof.
  intros H. unfold set_tags.
  erewrite bind_ok by (by apply get_instance_ok). done.
Qed.

Lemma init_ok σ self i c :
  instance_at σ self = Some i →
  __init__ self c σ =
    (State (<[self := OInstance (Instance (init_attrs c (attrs i))
                                          (init_tags (distance c)))]> (heap σ))
           (trace σ), Ok tt).
Proof.
  intros H. unfold __init__, BaseClusterer__init__.
  do 6 (erewrite bind_ok;
        [| apply setattr_ok; first [exact H | apply instance_at_insert_eq]];
        cbn [heap trace attrs tags_dynamic]; rewrite ?insert_insert_eq).
  erewrite bind_ok.
  2:{ erewrite bind_ok by (apply get_instance_ok, instance_at_insert_eq).
      erewrite bind_ok by reflexivity.
      apply setattr_ok. unfold put_instance. apply instance_at_insert_eq. }
  cbn [heap trace attrs tags_dynamic]. rewrite !insert_insert_eq.
  destruct (distance c) eqn:Hd; cbn [isinstance_BasePairwiseTransformerPanel
    isinstance_str clone_tags init_tags];
    (erewrite bind_ok;
       [| first [reflexivity | apply set_tags_ok, instance_at_insert_eq]]);
    (erewrite bind_ok;
       [| first [reflexivity | apply set_tags_ok, instance_at_insert_eq]]);
    cbn [heap trace attrs tags_dynamic]; rewrite ?insert_insert_eq;
    (erewrite setattr_ok by apply instance_at_insert_eq);
    cbn [heap trace attrs tags_dynamic]; rewrite ?insert_insert_eq;
    unfold init_attrs; rewrite Hd; reflexivity.
Qed.

Lemma construct_ok σ c :
  TimeSeriesDBSCAN c σ =
    (State (<[fresh (dom (heap σ)) :=
                OInstance (Instance (init_attrs c ∅) (init_tags (distance c)))]>
              (heap σ)) (trace σ),
     Ok (fresh (dom (heap σ)))).
Proof.
  unfold TimeSeriesDBSCAN.
  erewrite bind_ok by reflexivity.
  erewrite bind_ok by (apply init_ok, instance_at_insert_eq).
  cbn [heap trace attrs]. by rewrite insert_insert_eq.
Qed.

Lemma init_attrs_config c a : holds_config (init_attrs c a) c.
Proof. unfold holds_config, init_attrs. by simplify_map_eq. Qed.

(** ** Fitting *)

Lemma bind_eq {A B} (m : M A) (k : A → M B) σ :
  (m ≫= k) σ = match m σ with
               | (σ', Ok a) => k a σ'
               | (σ', Err e) => (σ', Err e)
               end.
Proof. reflexivity. Qed.

Lemma py_call_run callee X σ :
  py_call callee X σ =
    (State (heap σ) (trace σ ++ call_events callee X),
     applied callee (panel_at σ X)).
Proof.
  destruct σ as [h tr].
  unfold py_call, call_events.
  destruct callee; cbn [py_callable applied heap trace];
    rewrite ?app_nil_r; try reflexivity;
    erewrite bind_ok by reflexivity;
    unfold apply_to_panel, applied, panel_at; cbn [heap];
    destruct (h !! X) as [[]|]; reflexivity.
Qed.

Lemma applied_callable callee p D :
  applied callee p = Ok D → call_events callee = λ X, [EvCall callee X].
Proof. by destruct callee. Qed.

Lemma delegated_params_run σ self i c :
  instance_at σ self = Some i →
  holds_config (attrs i) c →
  dict_comp DELEGATED_PARAMS (getattr self) σ =
    (σ, Ok (<["eps" := eps c]>
              (<["min_samples" := min_samples c]>
                 (<["algorithm" := algorithm c]>
                    (<["leaf_size" := leaf_size c]>
                       (<["n_jobs" := n_jobs c]> ∅)))))).
Proof.
  intros Hi (_ & He & Hm & Ha & Hl & Hn).
  assert (Hget : ∀ name v, attrs i !! name = Some v →
                 getattr self name σ = (σ, Ok v)).
  { intros name v Hv. apply getattr_ok. by rewrite (attr_instance _ _ _ _ Hi). }
  unfold DELEGATED_PARAMS. cbn [dict_comp].
  erewrite bind_ok by (apply Hget, He). erewrite bind_ok; [reflexivity |].
  erewrite bind_ok by (apply Hget, Hm). erewrite bind_ok; [reflexivity |].
  erewrite bind_ok by (apply Hget, Ha). erewrite bind_ok; [reflexivity |].
  erewrite bind_ok by (apply Hget, Hl). erewrite bind_ok; [reflexivity |].
  erewrite bind_ok by (apply Hget, Hn). erewrite bind_ok; reflexivity.
Qed.

Lemma insert_over (h : gmap loc object) o d x y z :
  o ≠ d → <[o := x]> (<[d := y]> (<[o := z]> h)) = <[o := x]> (<[d := y]> h).
Proof.
  intros Hne. rewrite (insert_insert_ne _ d o) by done.
  by rewrite insert_insert_eq.
Qed.

Lemma insert_under (h : gmap loc object) o d x y z :
  o ≠ d → <[d := y]> (<[o := x]> (<[d := z]> h)) = <[o := x]> (<[d := y]> h).
Proof.
  intros Hne. rewrite (insert_insert_ne _ d o) by done.
  by rewrite insert_insert_eq.
Qed.

Lemma copy_fitted_cons key keys src dst :
  copy_fitted (key :: keys) src dst =
    copy_fitted keys src (match src !! key with
                          | Some v => <[key := v]> dst
                          | None => dst
                          end).
Proof. reflexivity. Qed.

Lemma copy_fitted_other keys src dst name :
  name ∉ keys → copy_fitted keys src dst !! name = dst !! name.
Proof.
  revert dst. induction keys as [|key keys IH]; intros dst Hn; [done |].
  apply not_elem_of_cons in Hn as [Hne Hn].
  rewrite copy_fitted_cons, IH by done.
  destruct (src !! key); [by rewrite lookup_insert_ne | done].
Qed.

Lemma copy_loop self d keys src td h tr : ∀ a t,
  self ≠ d →
  "dbscan_" ∉ keys →
  a !! "dbscan_" = Some (VRef d) →
  for_each keys (λ key,
      dbscan_ ← getattr self "dbscan_";
      b ← hasattr_v dbscan_ key;
      if b : bool then
        dbscan_ ← getattr self "dbscan_";
        v ← getattr_v dbscan_ key;
        setattr self key v
      else ret tt)
    (State (<[self := OInstance (Instance a t)]>
              (<[d := OInstance (Instance src td)]> h)) tr) =
  (State (<[self := OInstance (Instance (copy_fitted keys src a) t)]>
            (<[d := OInstance (Instance src td)]> h)) tr, Ok tt).
Proof.
  induction keys as [|key keys IH]; intros a t Hne Hk Ha; [done |].
  apply not_elem_of_cons in Hk as [Hkey Hk].
  cbn [for_each]. rewrite copy_fitted_cons.
  assert (Hd : attr (State (<[self := OInstance (Instance a t)]>
                 (<[d := OInstance (Instance src td)]> h)) tr) d key
               = src !! key).
  { rewrite attr_insert_ne by done. apply attr_insert_eq. }
  erewrite bind_ok; [apply IH; try done |].
  - destruct (src !! key); [by rewrite lookup_insert_ne | done].
  - erewrite bind_ok by (apply getattr_ok; rewrite attr_insert_eq; exact Ha).
    cbn [hasattr_v getattr_v].
    erewrite bind_ok by reflexivity. rewrite Hd.
    destruct (src !! key) as [v|] eqn:Hv.
    + rewrite bool_decide_eq_true_2 by eauto.
      erewrite bind_ok by (apply getattr_ok; rewrite attr_insert_eq; exact Ha).
      cbn [getattr_v].
      erewrite bind_ok by (apply getattr_ok; exact Hd).
      erewrite setattr_ok by apply instance_at_insert_eq.
      cbn [heap trace attrs tags_dynamic]. by rewrite insert_insert_eq.
    + rewrite bool_decide_eq_false_2; [done |]. by intros [? ?].
Qed.


Lemma _fit_run sklearn_fit σ self X i c :
  instance_at σ self = Some i →
  holds_config (attrs i) c →
  _fit sklearn_fit self X σ = fit_outcome sklearn_fit σ self X i c.
Proof.
  intros Hi Hc. unfold _fit, fit_outcome.
  pose proof (instance_is_live _ _ _ Hi) as Hlive.
  pose proof (fresh_ne_live _ _ Hlive) as Hfresh.
  destruct σ as [h tr]. cbn [heap trace] in *.
  erewrite bind_ok by (by apply setattr_ok).
  erewrite bind_ok.
  2:{ apply getattr_ok. rewrite attr_insert_eq. cbn [attrs].
      rewrite lookup_insert_ne by done. apply Hc. }
  rewrite (bind_eq (py_call _ _)), py_call_run. cbn [heap trace].
  rewrite (panel_at_insert_instance _ _ _ _ _ _ _ Hi).
  destruct (applied (distance c) (panel_at (State h tr) X)) as [D|e] eqn:Happ;
    [| done].
  rewrite (applied_callable _ _ _ Happ).
  erewrite bind_ok.
  2:{ eapply delegated_params_run; [apply instance_at_insert_eq |].
      cbn [attrs]. unfold holds_config in *.
      rewrite !lookup_insert_ne by done. exact Hc. }
  fold (delegate_kwargs c).
  unfold DBSCAN.
  erewrite bind_ok.
  2:{ erewrite bind_ok by reflexivity. erewrite bind_ok by reflexivity.
      reflexivity. }
  cbn [heap trace]. rewrite (dom_insert_live _ _ _ Hlive).
  set (d := fresh (dom h)) in *.
  erewrite bind_ok.
  2:{ apply setattr_ok. rewrite instance_at_insert_ne by done.
      apply instance_at_insert_eq. }
  cbn [heap trace attrs tags_dynamic]. rewrite insert_over by done.
  erewrite bind_ok.
  2:{ apply getattr_ok. rewrite attr_insert_eq. apply lookup_insert_eq. }
  unfold DBSCAN_fit.
  rewrite (bind_eq (_ ≫= _)).
  erewrite bind_ok.
  2:{ apply get_instance_ok. rewrite instance_at_insert_ne by done.
      apply instance_at_insert_eq. }
  erewrite bind_ok by reflexivity.
  cbn [heap trace attrs tags_dynamic].
  rewrite <- !app_assoc. cbn [app].
  destruct (sklearn_fit (delegate_kwargs c) D) as [fitted|e]; [|done].
  unfold put_instance. cbn [heap trace].
  rewrite insert_under by done.
  erewrite bind_ok; [reflexivity |].
  apply copy_loop; [done | | apply lookup_insert_eq].
  unfold DELEGATED_FITTED_PARAMS.
  by repeat (apply not_elem_of_cons; split; [done |]); apply not_elem_of_nil.
Qed.

Lemma copy_fitted_lookup keys src dst name :
  copy_fitted keys src dst !! name =
    if decide (name ∈ keys)
    then match src !! name with
         | Some v => Some v
         | None => dst !! name
         end
    else dst !! name.
Proof.
  revert dst. induction keys as [|key keys IH]; intros dst; [done |].
  rewrite copy_fitted_cons, IH.
  destruct (decide (name = key)) as [->|Hne].
  - rewrite (decide_True (P := key ∈ key :: keys)) by apply list_elem_of_here.
    destruct (src !! key) as [v|] eqn:Hv.
    + rewrite lookup_insert_eq. by destruct (decide _).
    + by destruct (decide _).
  - assert (Hdst : match src !! key with
                   | Some v => <[key := v]> dst
                   | None => dst
                   end !! name = dst !! name).
    { destruct (src !! key); [by rewrite lookup_insert_ne | done]. }
    rewrite Hdst.
    destruct (decide (name ∈ keys)) as [Hin|Hin].
    + by rewrite decide_True by (by apply list_elem_of_further).
    + rewrite decide_False; [done |].
      by intros [?|?]%elem_of_cons.
Qed.

Lemma fit_run sklearn_fit σ self X i c :
  instance_at σ self = Some i →
  holds_config (attrs i) c →
  fit sklearn_fit self X σ =
    match fit_outcome sklearn_fit σ self X i c with
    | (σ', Ok _) => (setattr self "_is_fitted" (VBool true) ;; ret self) σ'
    | (σ', Err e) => (σ', Err e)
    end.
Proof.
  intros Hi Hc. unfold fit. rewrite bind_eq, (_fit_run _ _ _ _ _ _ Hi Hc).
  by destruct (fit_outcome _ _ _ _ _ _) as [σ' [?|?]].
Qed.

Lemma not_fit_key k :
  k ∉ fit_keys →
  k ≠ "_X" ∧ k ≠ "dbscan_" ∧ k ≠ "_is_fitted" ∧ k ∉ DELEGATED_FITTED_PARAMS.
Proof.
  unfold fit_keys. cbn [app]. rewrite !not_elem_of_cons. tauto.
Qed.

#[local] Arguments copy_fitted : simpl never.

Lemma fit_effect sklearn_fit σ self X i c σ' r :
  instance_at σ self = Some i →
  holds_config (attrs i) c →
  fit sklearn_fit self X σ = (σ', r) →
  (∃ rest, trace σ' = trace σ ++ rest) ∧
  (∀ o, is_Some (heap σ !! o) → o ≠ self → heap σ' !! o = heap σ !! o) ∧
  ∃ i', instance_at σ' self = Some i' ∧
        tags_dynamic i' = tags_dynamic i ∧
        (∀ k, k ∉ fit_keys → attrs i' !! k = attrs i !! k) ∧
        attrs i' !! "_is_fitted" =
          match r with
          | Ok _ => Some (VBool true)
          | Err _ => attrs i !! "_is_fitted"
          end.
Proof.
  intros Hi Hc. rewrite (fit_run _ _ _ _ _ _ Hi Hc). unfold fit_outcome.
  pose proof (instance_is_live _ _ _ Hi) as Hlive.
  pose proof (fresh_ne_live _ _ Hlive) as Hfresh.
  destruct σ as [h tr]. cbn [heap trace] in *.
  set (d := fresh (dom h)) in *.
  destruct (applied _ _) as [D|e].
  2:{ intros [= <- <-]. cbn [heap trace]. split; [eauto |]. split.
      - intros o _ Ho. by rewrite lookup_insert_ne.
      - eexists. split; [apply instance_at_insert_eq |]. cbn [attrs tags_dynamic].
        split; [done |]. split; [| by rewrite lookup_insert_ne].
        intros k (? & ? & ? & ?)%not_fit_key. by rewrite lookup_insert_ne. }
  assert (Hframe : ∀ (x y : object) o, is_Some (h !! o) → o ≠ self →
            <[self := x]> (<[d := y]> h) !! o = h !! o).
  { intros x y o Ho Hne. rewrite lookup_insert_ne by done.
    rewrite lookup_insert_ne; [done |]. by apply fresh_ne_live. }
  destruct (sklearn_fit _ _) as [fitted|e].
  2:{ intros [= <- <-]. cbn [heap trace]. split; [eauto |].
      split; [by apply Hframe |].
      eexists. split; [apply instance_at_insert_eq |]. cbn [attrs tags_dynamic].
      split; [done |]. split; [| by rewrite !lookup_insert_ne].
      intros k (? & ? & ? & ?)%not_fit_key. by rewrite !lookup_insert_ne. }
  erewrite bind_ok by (apply setattr_ok, instance_at_insert_eq).
  cbn [heap trace attrs tags_dynamic]. rewrite insert_insert_eq.
  intros [= <- <-]. cbn [heap trace]. split; [eauto |].
  split; [by apply Hframe |].
  eexists. split; [apply instance_at_insert_eq |]. cbn [attrs tags_dynamic].
  split; [done |]. split; [| by rewrite lookup_insert_eq].
  intros k (? & ? & ? & ?)%not_fit_key.
  rewrite (lookup_insert_ne _ "_is_fitted") by done.
  rewrite copy_fitted_other by done.
  by rewrite !lookup_insert_ne.
Qed.

(** ** Predicting *)

Lemma get_params_cases σ self :
  (∃ c, get_params self σ = (σ, Ok c) ∧ has_config σ self c) ∨
  (∃ e, get_params self σ = (σ, Err e)).
Proof.
  unfold get_params, has_config, holds_config.
  destruct (instance_at σ self) as [i|] eqn:Hi.
  2:{ right. eexists. apply bind_err, getattr_err. unfold attr. by rewrite Hi. }
  assert (Hget : ∀ name, getattr self name σ =
            (σ, match attrs i !! name with
                | Some v => Ok v
                | None => Err (AttributeError name)
                end)).
  { intros name. unfold getattr. rewrite (attr_instance _ _ _ _ Hi).
    by destruct (attrs i !! name). }
  rewrite bind_eq, Hget. destruct (attrs i !! "distance") as [vd|] eqn:Hvd; [| eauto].
  rewrite bind_eq, Hget. destruct (attrs i !! "eps") as [ve|] eqn:Hve; [| eauto].
  rewrite bind_eq, Hget. destruct (attrs i !! "min_samples") as [vm|] eqn:Hvm; [| eauto].
  rewrite bind_eq, Hget. destruct (attrs i !! "algorithm") as [va|] eqn:Hva; [| eauto].
  rewrite bind_eq, Hget. destruct (attrs i !! "leaf_size") as [vl|] eqn:Hvl; [| eauto].
  rewrite bind_eq, Hget. destruct (attrs i !! "n_jobs") as [vn|] eqn:Hvn; [| eauto].
  left. eexists (Build_Config vd ve vm va vl vn). split; [done |].
  exists i. by cbn.
Qed.

Lemma has_config_get_params σ self c :
  has_config σ self c → get_params self σ = (σ, Ok c).
Proof.
  intros (i & Hi & Hd & He & Hm & Ha & Hl & Hn). unfold get_params.
  assert (Hget : ∀ name v, attrs i !! name = Some v →
                 getattr self name σ = (σ, Ok v)).
  { intros name v Hv. apply getattr_ok. by rewrite (attr_instance _ _ _ _ Hi). }
  erewrite bind_ok by (apply Hget, Hd). erewrite bind_ok by (apply Hget, He).
  erewrite bind_ok by (apply Hget, Hm). erewrite bind_ok by (apply Hget, Ha).
  erewrite bind_ok by (apply Hget, Hl). erewrite bind_ok by (apply Hget, Hn).
  by destruct c.
Qed.

(** What fitting a fresh clone does to the store it starts from: it adds to
    the trace and leaves every live object as it was. *)
Lemma clone_fit_effect sklearn_fit self all_X σ :
  let σ' := (c ← clone self;
             c ← fit sklearn_fit c all_X;
             getattr c "labels_") σ in
  (∃ rest, trace σ'.1 = trace σ ++ rest) ∧
  (∀ o, is_Some (heap σ !! o) → heap σ'.1 !! o = heap σ !! o).
Proof.
  cbn zeta. unfold clone.
  destruct (get_params_cases σ self) as [(c & Hp & _)|(e & Hp)].
  2:{ erewrite bind_err by (by erewrite bind_err by exact Hp).
      cbn. split; [exists []; by rewrite app_nil_r | done]. }
  erewrite bind_ok by (erewrite bind_ok by exact Hp; apply construct_ok).
  rewrite bind_eq.
  set (cl := fresh (dom (heap σ))).
  set (i0 := Instance (init_attrs c ∅) (init_tags (distance c))).
  set (σ1 := State (<[cl := OInstance i0]> (heap σ)) (trace σ)).
  pose proof (fit_effect sklearn_fit σ1 cl all_X i0 c) as Hfit.
  destruct (fit sklearn_fit cl all_X σ1) as [σ2 r] eqn:Hr.
  destruct (Hfit σ2 r) as ((rest & Htr) & Hframe & _);
    [apply instance_at_insert_eq | apply init_attrs_config | done |].
  assert (Hσ2 : (∃ rest, trace σ2 = trace σ ++ rest) ∧
                (∀ o, is_Some (heap σ !! o) → heap σ2 !! o = heap σ !! o)).
  { split; [by exists rest |]. intros o Ho.
    assert (cl ≠ o) by (by apply fresh_ne_live).
    rewrite Hframe; [| | done].
    - unfold σ1. cbn [heap]. by rewrite lookup_insert_ne.
    - unfold σ1. cbn [heap]. by rewrite lookup_insert_ne. }
  destruct r as [c'|e]; [| done].
  unfold getattr. by destruct (attr σ2 c' "labels_").
Qed.

Lemma _predict_same sklearn_fit σ self X :
  attr σ self "_X" = Some (VRef X) →
  _predict sklearn_fit self X σ = getattr self "labels_" σ.
Proof.
  intros HX. unfold _predict. erewrite bind_ok by (by apply getattr_ok).
  cbn [py_is]. by rewrite bool_decide_eq_true_2.
Qed.

Lemma get_panel_ok σ o p : panel_at σ o = Some p → get_panel o σ = (σ, Ok p).
Proof. intros H. unfold get_panel. by rewrite H. Qed.

Lemma _predict_refit sklearn_fit σ self X0 X p0 p :
  attr σ self "_X" = Some (VRef X0) →
  X ≠ X0 →
  panel_at σ X0 = Some p0 →
  panel_at σ X = Some p →
  _predict sklearn_fit self X σ =
    (c ← clone self;
     c ← fit sklearn_fit c (fresh (dom (heap σ)));
     getattr c "labels_")
      (State (<[fresh (dom (heap σ)) := OPanel (merge_panels p0 p)]> (heap σ))
             (trace σ ++ [EvWarn refit_warning self])).
Proof.
  intros HX Hne Hp0 Hp. unfold _predict.
  erewrite bind_ok by (by apply getattr_ok).
  cbn [py_is]. rewrite bool_decide_eq_false_2 by done.
  erewrite bind_ok.
  2:{ unfold update_data. erewrite bind_ok by (by apply get_panel_ok).
      erewrite bind_ok by (by apply get_panel_ok). reflexivity. }
  by erewrite bind_ok by reflexivity.
Qed.

Lemma _predict_effect sklearn_fit self X σ :
  let σ' := (_predict sklearn_fit self X σ).1 in
  (∃ rest, trace σ' = trace σ ++ rest) ∧
  (∀ o, is_Some (heap σ !! o) → heap σ' !! o = heap σ !! o).
Proof.
  cbn zeta.
  assert (Hsame : (∃ rest, trace σ = trace σ ++ rest) ∧
                  (∀ o, is_Some (heap σ !! o) → heap σ !! o = heap σ !! o)).
  { split; [exists []; by rewrite app_nil_r | done]. }
  destruct (attr σ self "_X") as [v|] eqn:HX.
  2:{ unfold _predict. by erewrite bind_err by (by apply getattr_err). }
  destruct v as [| | | | | | |X0| |];
    try (unfold _predict; erewrite bind_ok by (by apply getattr_ok);
         cbn [py_is]; erewrite bind_err by reflexivity; exact Hsame).
  destruct (decide (X = X0)) as [<-|Hne].
  { rewrite _predict_same by done. unfold getattr.
    by destruct (attr σ self "labels_"). }
  assert (Hnot : py_is (VRef X) (VRef X0) = false).
  { cbn. by apply bool_decide_eq_false_2. }
  destruct (panel_at σ X0) as [p0|] eqn:Hp0.
  2:{ unfold _predict. erewrite bind_ok by (by apply getattr_ok).
      rewrite Hnot. erewrite bind_err; [done |].
      unfold update_data. apply bind_err. unfold get_panel. by rewrite Hp0. }
  destruct (panel_at σ X) as [p|] eqn:Hp.
  2:{ unfold _predict. erewrite bind_ok by (by apply getattr_ok).
      rewrite Hnot. erewrite bind_err; [done |].
      unfold update_data. erewrite bind_ok by (by apply get_panel_ok).
      apply bind_err. unfold get_panel. by rewrite Hp. }
  rewrite (_predict_refit _ _ _ X0 X p0 p) by done.
  match goal with |- context [(_ ≫= _) ?s] => set (σ1 := s) end.
  destruct (clone_fit_effect sklearn_fit self (fresh (dom (heap σ))) σ1)
    as ((rest & Htr) & Hframe).
  split.
  - exists (EvWarn refit_warning self :: rest).
    rewrite Htr. unfold σ1. cbn [trace]. by rewrite <- app_assoc.
  - intros o Ho. rewrite Hframe.
    + unfold σ1. cbn [heap]. rewrite lookup_insert_ne; [done |].
      by apply fresh_ne_live.
    + unfold σ1. cbn [heap]. rewrite lookup_insert_ne; [done |].
      by apply fresh_ne_live.
Qed.

Lemma check_is_fitted_run σ self :
  check_is_fitted self σ =
    (σ, match attr σ self "_is_fitted" with
        | Some (VBool true) => Ok tt
        | _ => Err NotFittedError
        end).
Proof.
  unfold check_is_fitted. erewrite bind_ok by reflexivity.
  destruct (attr σ self "_is_fitted") as [v|] eqn:Hv.
  - rewrite bool_decide_eq_true_2 by eauto.
    erewrite bind_ok by (by apply getattr_ok).
    by destruct v as [|[]| | | | | | | |].
  - rewrite bool_decide_eq_false_2; [done |]. by intros [? ?].
Qed.

Lemma predict_effect sklearn_fit self X σ :
  ∀ o, is_Some (heap σ !! o) →
       heap (predict sklearn_fit self X σ).1 !! o = heap σ !! o.
Proof.
  intros o Ho. unfold predict. rewrite bind_eq, check_is_fitted_run.
  destruct (attr σ self "_is_fitted") as [[|[]| | | | | | | |]|]; try done.
  by apply _predict_effect.
Qed.

(** ** What holds throughout the life of an adapter *)

Lemma holds_config_outside a a' c :
  (∀ k, k ∉ fit_keys → a' !! k = a !! k) →
  holds_config a c → holds_config a' c.
Proof.
  intros Hout (Hd & He & Hm & Ha & Hl & Hn).
  unfold holds_config.
  rewrite !Hout; [done | | | | | |]; unfold fit_keys, DELEGATED_FITTED_PARAMS;
    cbn [app]; by repeat (apply not_elem_of_cons; split; [done |]);
    apply not_elem_of_nil.
Qed.

Lemma lifecycle_invariant sklearn_fit self c b σ :
  lifecycle sklearn_fit self c b σ →
  ∃ i, instance_at σ self = Some i ∧
       holds_config (attrs i) c ∧
       attrs i !! "_is_fitted" = Some (VBool b) ∧
       attrs i !! "components_" = None ∧
       tags_dynamic i = init_tags (distance c).
Proof.
  assert (Hcomp : "components_" ∉ fit_keys).
  { unfold fit_keys, DELEGATED_FITTED_PARAMS. cbn [app].
    by repeat (apply not_elem_of_cons; split; [done |]);
      apply not_elem_of_nil. }
  induction 1 as [σ0 σ Hnew
                 |b σ X σ' r _ IH Hfit
                 |b σ X σ' e _ IH Hfit
                 |b σ X σ' r _ IH Hpred
                 |b σ ob _ IH].
  - rewrite construct_ok in Hnew. injection Hnew as <- <-.
    eexists. split; [apply instance_at_insert_eq |]. cbn [attrs tags_dynamic].
    split; [apply init_attrs_config |]. by unfold init_attrs; simplify_map_eq.
  - destruct IH as (i & Hi & Hc & Hf & Hk & Ht).
    destruct (fit_effect _ _ _ _ _ _ _ _ Hi Hc Hfit)
      as (_ & _ & i' & Hi' & Ht' & Hout & Hf').
    exists i'. split; [done |]. split; [by eapply holds_config_outside |].
    split; [done |]. split; [by rewrite Hout | congruence].
  - destruct IH as (i & Hi & Hc & Hf & Hk & Ht).
    destruct (fit_effect _ _ _ _ _ _ _ _ Hi Hc Hfit)
      as (_ & _ & i' & Hi' & Ht' & Hout & Hf').
    exists i'. split; [done |]. split; [by eapply holds_config_outside |].
    split; [congruence |]. split; [by rewrite Hout | congruence].
  - destruct IH as (i & Hi & Hrest). exists i. split; [| done].
    pose proof (predict_effect sklearn_fit self X σ self
                  (instance_is_live _ _ _ Hi)) as Heq.
    rewrite Hpred in Heq. cbn [fst] in Heq.
    unfold instance_at in *. by rewrite Heq.
  - destruct IH as (i & Hi & Hrest). exists i. split; [| done].
    unfold alloc, instance_at in *. cbn [fst heap].
    rewrite lookup_insert_ne; [done |].
    apply fresh_ne_live. by destruct (heap σ !! self).
Qed.

(** On an adapter on which a [fit] has succeeded, the guard of [predict]
    passes and [predict] is [_predict]. *)
Lemma predict_fitted sklearn_fit self c σ X :
  lifecycle sklearn_fit self c true σ →
  predict sklearn_fit self X σ = _predict sklearn_fit self X σ.
Proof.
  intros (i & Hi & _ & Hf & _)%lifecycle_invariant.
  unfold predict. erewrite bind_ok; [done |].
  by rewrite check_is_fitted_run, (attr_instance _ _ _ _ Hi), Hf.
Qed.

(** The tags set at construction stay as they are: neither [fit] nor
    [predict] alters them. *)
Lemma tags_stable sklearn_fit self c b σ name :
  lifecycle sklearn_fit self c b σ →
  get_tag self name σ =
    (σ, match (init_tags (distance c) ∪ _tags) !! name with
        | Some v => Ok v
        | None => Err (Raised "ValueError")
        end).
Proof.
  intros (i & Hi & _ & _ & _ & Ht)%lifecycle_invariant.
  unfold get_tag. erewrite bind_ok by (by apply get_instance_ok).
  rewrite Ht. by destruct (_ !! name).
Qed.

(** ** Declared capabilities *)

Lemma get_tag_run σ self i name :
  instance_at σ self = Some i →
  get_tag self name σ =
    (σ, match (tags_dynamic i ∪ _tags) !! name with
        | Some v => Ok v
        | None => Err (Raised "ValueError")
        end).
Proof.
  intros Hi. unfold get_tag. erewrite bind_ok by (by apply get_instance_ok).
  by destruct (_ !! name).
Qed.

Lemma cloned_tags_lookup (tags : gmap string tag_value) names t v :
  t ∈ names →
  tags !! t = Some v →
  select_tags tags names !! t = Some v.
Proof.
  intros Hin Ht. induction names as [|key names IH]; [by inversion Hin |].
  unfold select_tags in *. cbn [foldr]. destruct (decide (key = t)) as [->|Hne].
  - rewrite Ht. apply lookup_insert_eq.
  - apply elem_of_cons in Hin as [?|Hin]; [congruence |].
    destruct (tags !! key); [rewrite lookup_insert_ne by done |]; auto.
Qed.

(** C6.  An adapter constructed with a string as its distance declares
    that it does not support unequal length and that its inner input type is
    numpy3D alone, whatever the class declares by default (there: unequal
    length supported, and two inner types). *)
Theorem string_distance_downgrades_tags σ name e m a l n :
  ∃ self σ',
    TimeSeriesDBSCAN (Build_Config (VStr name) e m a l n) σ = (σ', Ok self) ∧
    get_tag self "capability:unequal_length" σ' = (σ', Ok (TagBool false)) ∧
    get_tag self "X_inner_mtype" σ' = (σ', Ok (TagStr "numpy3D")) ∧
    _tags !! "capability:unequal_length" = Some (TagBool true) ∧
    _tags !! "X_inner_mtype" = Some (TagList ["pd-multiindex"; "numpy3D"]).
Proof.
  eexists _, _. split; [apply construct_ok |].
  split; [| split; [| done]];
    by erewrite get_tag_run by apply instance_at_insert_eq.
Qed.

(** C7.  An adapter constructed with a Provider object that declares its
    capabilities declares, for each of multivariate, unequal length and
    missing values, what the Provider declares.  With a Provider that
    declares unequal length unsupported ([v] false at that tag) the adapter
    declares it unsupported. *)
Theorem pairwise_distance_propagates_tags σ tags f e m a l n t v :
  t ∈ [ "capability:multivariate";
        "capability:unequal_length";
        "capability:missing_values" ] →
  tags !! t = Some v →
  ∃ self σ',
    TimeSeriesDBSCAN (Build_Config (VPairwise tags f) e m a l n) σ
      = (σ', Ok self) ∧
    get_tag self t σ' = (σ', Ok v).
Proof.
  intros Ht Hv. eexists _, _. split; [apply construct_ok |].
  erewrite get_tag_run by apply instance_at_insert_eq.
  cbn [tags_dynamic init_tags distance].
  erewrite lookup_union_Some_l; [done |].
  apply lookup_union_Some_l. by apply cloned_tags_lookup.
Qed.

Lemma pairwise_distance_propagates_tags_witness :
  ∃ self σ',
    TimeSeriesDBSCAN (default_config (VPairwise pairwise_tags_equal_length
                                                zero_dist)) store0
      = (σ', Ok self) ∧
    get_tag self "capability:unequal_length" σ' = (σ', Ok (TagBool false)).
Proof.
  apply (pairwise_distance_propagates_tags store0 pairwise_tags_equal_length
           zero_dist _ _ _ _ _ "capability:unequal_length" (TagBool false)).
  - apply list_elem_of_further, list_elem_of_here.
  - reflexivity.
Defined.

(** ** A string as the distance *)

(** C2.  With a string as its distance the adapter is constructed, and
    [_fit] on it, hence [fit], raises TypeError at the call of the distance,
    whatever the panel and whatever the name: nothing is called, no
    distance matrix is produced and the delegate is never built. *)
Theorem fit_string_distance_raises sklearn_fit σ name e m a l n X :
  ∃ self σ1 σ2,
    TimeSeriesDBSCAN (Build_Config (VStr name) e m a l n) σ = (σ1, Ok self) ∧
    _fit sklearn_fit self X σ1 = (σ2, Err TypeError) ∧
    fit sklearn_fit self X σ1 = (σ2, Err TypeError) ∧
    trace σ2 = trace σ ∧
    attr σ2 self "dbscan_" = Some VNone.
Proof.
  eexists _, _, _. split; [apply construct_ok |].
  erewrite fit_run, _fit_run;
    [| apply instance_at_insert_eq | apply init_attrs_config
     | apply instance_at_insert_eq | apply init_attrs_config].
  unfold fit_outcome. cbn [applied distance call_events py_callable].
  split; [reflexivity |]. split; [reflexivity |].
  cbn [trace]. split; [apply app_nil_r |].
  rewrite attr_insert_eq. cbn [attrs].
  rewrite lookup_insert_ne by done. by unfold init_attrs; simplify_map_eq.
Qed.

(** ** Predicting before fitting *)

(** C9.  On an adapter on which no [fit] has succeeded so far, [predict]
    raises NotFittedError, a condition of its own, and changes nothing. *)
Theorem predict_before_fit_not_fitted sklearn_fit self c σ X :
  lifecycle sklearn_fit self c false σ →
  predict sklearn_fit self X σ = (σ, Err NotFittedError) ∧
  NotFittedError ≠ TypeError ∧
  ∀ name, NotFittedError ≠ AttributeError name.
Proof.
  intros (i & Hi & _ & Hf & _)%lifecycle_invariant.
  split; [| done]. unfold predict.
  erewrite bind_err; [done |].
  rewrite check_is_fitted_run, (attr_instance _ _ _ _ Hi), Hf. done.
Qed.

Lemma predict_before_fit_not_fitted_witness :
  let σ := (TimeSeriesDBSCAN (default_config (VCallable zero_dist)) store0).1 in
  predict one_cluster_fit 4%positive 1%positive σ = (σ, Err NotFittedError).
Proof.
  apply (predict_before_fit_not_fitted one_cluster_fit 4%positive
           (default_config (VCallable zero_dist))).
  apply (life_new _ _ _ store0). reflexivity.
Defined.

(** Without the guard of the base class, [_predict] on an adapter just
    constructed fails on the attribute [_X], which only [_fit] sets. *)
Lemma _predict_unfitted_attribute_error sklearn_fit σ0 c σ self X :
  TimeSeriesDBSCAN c σ0 = (σ, Ok self) →
  _predict sklearn_fit self X σ = (σ, Err (AttributeError "_X")).
Proof.
  rewrite construct_ok. intros [= <- <-]. unfold _predict.
  erewrite bind_err; [done |]. apply getattr_err.
  rewrite attr_insert_eq. by unfold init_attrs; simplify_map_eq.
Qed.

(** ** What [fit] hands to the delegate *)

Lemma lifecycle_fit_run sklearn_fit self c b σ X :
  lifecycle sklearn_fit self c b σ →
  ∃ i, instance_at σ self = Some i ∧
       _fit sklearn_fit self X σ = fit_outcome sklearn_fit σ self X i c.
Proof.
  intros (i & Hi & Hc & _)%lifecycle_invariant.
  exists i. split; [done |]. by apply _fit_run.
Qed.

(** C8.  At every [fit] in the life of an adapter constructed with
    configuration [c], once the distance has returned a matrix [D], the
    delegate is constructed with metric precomputed and with eps,
    min_samples, algorithm, leaf_size and n_jobs as in [c], and its fit is
    called on [D]; it is the object kept as [dbscan_]. *)
Theorem fit_builds_delegate_from_config sklearn_fit self c b σ X D :
  lifecycle sklearn_fit self c b σ →
  (py_call (distance c) X σ).2 = Ok D →
  ∃ d σ' r,
    _fit sklearn_fit self X σ = (σ', r) ∧
    heap σ !! d = None ∧
    trace σ' = trace σ ++
      [ EvCall (distance c) X;
        EvDBSCAN d (list_to_map [ ("metric", VStr "precomputed");
                                  ("eps", eps c);
                                  ("min_samples", min_samples c);
                                  ("algorithm", algorithm c);
                                  ("leaf_size", leaf_size c);
                                  ("n_jobs", n_jobs c) ]);
        EvDBSCAN_fit d D ] ∧
    attr σ' self "dbscan_" = Some (VRef d) ∧
    r = match sklearn_fit (delegate_kwargs c) D with
        | Ok _ => Ok self
        | Err e => Err e
        end.
Proof.
  intros Hlife HD.
  destruct (lifecycle_fit_run _ _ _ _ _ X Hlife) as (i & Hi & ->).
  rewrite py_call_run in HD. cbn [snd] in HD.
  unfold fit_outcome. rewrite HD.
  pose proof (fresh_ne_live _ _ (instance_is_live _ _ _ Hi)) as Hfresh.
  exists (fresh (dom (heap σ))).
  destruct (sklearn_fit (delegate_kwargs c) D) as [fitted|e] eqn:Hsk;
    eexists _, _; (split; [reflexivity |]);
    (split; [apply fresh_not_live |]); (split; [reflexivity |]);
    (split; [| reflexivity]); rewrite attr_insert_eq; cbn [attrs].
  - rewrite copy_fitted_other; [apply lookup_insert_eq |].
    unfold DELEGATED_FITTED_PARAMS.
    by repeat (apply not_elem_of_cons; split; [done |]); apply not_elem_of_nil.
  - apply lookup_insert_eq.
Qed.

Lemma fit_builds_delegate_from_config_witness :
  let c := default_config (VCallable zero_dist) in
  let σ := (TimeSeriesDBSCAN c store0).1 in
  ∃ d σ' r,
    _fit one_cluster_fit 4%positive 1%positive σ = (σ', r) ∧
    trace σ' =
      [ EvCall (VCallable zero_dist) 1%positive;
        EvDBSCAN d (list_to_map [ ("metric", VStr "precomputed");
                                  ("eps", VFloat (1 # 2));
                                  ("min_samples", VInt 5);
                                  ("algorithm", VStr "auto");
                                  ("leaf_size", VInt 30);
                                  ("n_jobs", VNone) ]);
        EvDBSCAN_fit d [[0 # 1; 0 # 1]; [0 # 1; 0 # 1]]%Q ].
Proof.
  cbn zeta.
  destruct (fit_builds_delegate_from_config one_cluster_fit 4%positive
              (default_config (VCallable zero_dist)) false
              (TimeSeriesDBSCAN (default_config (VCallable zero_dist))
                                store0).1
              1%positive [[0 # 1; 0 # 1]; [0 # 1; 0 # 1]]%Q)
    as (d & σ' & r & Hfit & _ & Htr & _).
  - apply (life_new _ _ _ store0). reflexivity.
  - reflexivity.
  - exists d, σ', r. split; [exact Hfit | exact Htr].
Defined.

(** C10, at a failing input.  In the life of an adapter whose distance is
    a string, at every [_fit] nothing is invoked at all: no call of the
    distance is recorded, no delegate is built or fitted, and TypeError is
    raised.  The claim promises one invocation and a matrix handed to the
    delegate. *)
Theorem fit_string_distance_calls_nothing sklearn_fit self c b σ X name :
  lifecycle sklearn_fit self c b σ →
  distance c = VStr name →
  ∃ σ',
    _fit sklearn_fit self X σ = (σ', Err TypeError) ∧
    trace σ' = trace σ ∧
    distance_calls (trace σ') = distance_calls (trace σ) ∧
    attr σ' self "dbscan_" = attr σ self "dbscan_".
Proof.
  intros Hlife Hd.
  destruct (lifecycle_fit_run _ _ _ _ _ X Hlife) as (i & Hi & ->).
  unfold fit_outcome. rewrite Hd. cbn [applied call_events py_callable].
  eexists. split; [reflexivity |]. cbn [trace]. rewrite app_nil_r.
  split; [done |]. split; [done |].
  rewrite attr_insert_eq, (attr_instance _ _ _ _ Hi). cbn [attrs].
  by rewrite lookup_insert_ne.
Qed.

Lemma fit_string_distance_calls_nothing_witness :
  let c := default_config (VStr "euclidean") in
  let σ := (TimeSeriesDBSCAN c store0).1 in
  ∃ σ',
    _fit one_cluster_fit 4%positive 1%positive σ = (σ', Err TypeError) ∧
    trace σ' = [] ∧
    attr σ' 4%positive "dbscan_" = Some VNone.
Proof.
  cbn zeta.
  destruct (fit_string_distance_calls_nothing one_cluster_fit 4%positive
              (default_config (VStr "euclidean")) false
              (TimeSeriesDBSCAN (default_config (VStr "euclidean")) store0).1
              1%positive "euclidean")
    as (σ' & Hfit & Htr & _ & Hd).
  - apply (life_new _ _ _ store0). reflexivity.
  - reflexivity.
  - exists σ'. split; [exact Hfit |]. split; [exact Htr |].
    rewrite Hd. reflexivity.
Defined.

(** ** The fitted attributes *)

(** Throughout its life the adapter has no attribute [components_]:
    [_fit] looks the delegate up under the name with a trailing space. *)
Lemma components_never_exposed sklearn_fit self c b σ :
  lifecycle sklearn_fit self c b σ →
  getattr self "components_" σ = (σ, Err (AttributeError "components_")).
Proof.
  intros (i & Hi & _ & _ & Hk & _)%lifecycle_invariant.
  apply getattr_err. by rewrite (attr_instance _ _ _ _ Hi).
Qed.

(** What a successful [_fit] copies: the delegate's core sample indices and
    labels when it has them, and nothing under a name it lacks. *)
Lemma fit_copies_fitted sklearn_fit self c b σ X σ' r name :
  lifecycle sklearn_fit self c b σ →
  _fit sklearn_fit self X σ = (σ', Ok r) →
  name ∈ ["core_sample_indices_"; "labels_"] →
  ∃ d, attr σ' self "dbscan_" = Some (VRef d) ∧
       match attr σ' d name with
       | Some v => attr σ' self name = Some v
       | None => attr σ' self name = attr σ self name
       end.
Proof.
  intros Hlife Hfit Hname.
  destruct (lifecycle_fit_run _ _ _ _ _ X Hlife) as (i & Hi & Hrun).
  rewrite Hrun in Hfit. unfold fit_outcome in Hfit.
  pose proof (fresh_ne_live _ _ (instance_is_live _ _ _ Hi)) as Hfresh.
  destruct (applied _ _) as [D|]; [| done].
  destruct (sklearn_fit _ _) as [fitted|]; [| done].
  injection Hfit as <- <-. exists (fresh (dom (heap σ))).
  rewrite (attr_insert_ne _ _ self (fresh (dom (heap σ)))) by done.
  rewrite !attr_insert_eq. cbn [attrs].
  split.
  { rewrite copy_fitted_other; [apply lookup_insert_eq |].
    unfold DELEGATED_FITTED_PARAMS.
    by repeat (apply not_elem_of_cons; split; [done |]); apply not_elem_of_nil. }
  rewrite copy_fitted_lookup, (attr_instance _ _ _ _ Hi).
  rewrite decide_True.
  2:{ unfold DELEGATED_FITTED_PARAMS.
      apply elem_of_cons in Hname as [->|Hname]; [apply list_elem_of_here |].
      apply elem_of_cons in Hname as [->|Hname]; [| by inversion Hname].
      do 2 apply list_elem_of_further. apply list_elem_of_here. }
  destruct (_ !! name); [done |].
  rewrite !lookup_insert_ne; [done | |];
    intros <-; repeat (apply elem_of_cons in Hname as [?|Hname]; [done |]);
    by inversion Hname.
Qed.

(** C1, at a failing input.  The adapter is constructed with a callable
    distance and fitted on a panel of two series; [_fit] succeeds.  The
    delegate has [components_], and its labels and core sample indices are
    on the adapter, but the adapter has no [components_]: reading it raises
    AttributeError. *)
Theorem fit_does_not_copy_components :
  let out := (c ← TimeSeriesDBSCAN (default_config (VCallable zero_dist));
              _fit one_cluster_fit c 1%positive) store0 in
  ∃ self d,
    out.2 = Ok self ∧
    attr out.1 self "dbscan_" = Some (VRef d) ∧
    attr out.1 d "components_"
      = Some (VArray [[0 # 1; 0 # 1]; [0 # 1; 0 # 1]]%Q) ∧
    attr out.1 self "labels_" = Some (VIntArray [0; 0]%Z) ∧
    attr out.1 self "core_sample_indices_" = Some (VIntArray [0; 1]%Z) ∧
    getattr self "components_" out.1
      = (out.1, Err (AttributeError "components_")).
Proof.
  exists 4%positive, 5%positive.
  split; [vm_compute; reflexivity |].
  split; [vm_compute; reflexivity |].
  split; [vm_compute; reflexivity |].
  split; [vm_compute; reflexivity |].
  split; [vm_compute; reflexivity |].
  apply getattr_err. vm_compute; reflexivity.
Qed.

(** ** The identity shortcut of [_predict] *)

(** On another object than the stored fit data, [_predict] is: build the
    merged panel as a new object, warn, construct an adapter from the
    configuration of this one, fit it on the merged panel and return its
    labels. *)
Lemma refit_run sklearn_fit σ self X0 X p0 p c :
  attr σ self "_X" = Some (VRef X0) →
  X ≠ X0 →
  panel_at σ X0 = Some p0 →
  panel_at σ X = Some p →
  has_config σ self c →
  _predict sklearn_fit self X σ =
    (clone ← TimeSeriesDBSCAN c;
     fitted_clone ← fit sklearn_fit clone (fresh (dom (heap σ)));
     getattr fitted_clone "labels_")
      (State (<[fresh (dom (heap σ)) := OPanel (merge_panels p0 p)]> (heap σ))
             (trace σ ++ [EvWarn refit_warning self])).
Proof.
  intros HX Hne Hp0 Hp (i & Hi & Hc).
  rewrite (_predict_refit _ _ _ X0 X p0 p) by done.
  rewrite !(bind_eq _ _ (State _ _)). unfold clone.
  erewrite bind_ok; [reflexivity |].
  apply has_config_get_params. exists i. split; [| done].
  destruct σ as [h tr]. cbn [heap trace].
  rewrite instance_at_insert_ne; [exact Hi |].
  apply fresh_ne_live. by apply (instance_is_live _ _ _ Hi).
Qed.

(** When the distance and the delegate succeed on the merged panel, the
    refit calls the distance on it, builds and fits a new delegate, and
    returns the labels of that delegate. *)
Lemma refit_success sklearn_fit σ self X0 X p0 p c D fitted L' :
  attr σ self "_X" = Some (VRef X0) →
  X ≠ X0 →
  panel_at σ X0 = Some p0 →
  panel_at σ X = Some p →
  has_config σ self c →
  applied (distance c) (Some (merge_panels p0 p)) = Ok D →
  sklearn_fit (delegate_kwargs c) D = Ok fitted →
  fitted !! "labels_" = Some L' →
  ∃ σ' clone d,
    _predict sklearn_fit self X σ = (σ', Ok L') ∧
    heap σ !! clone = None ∧
    trace σ' = trace σ ++
      [ EvWarn refit_warning self;
        EvCall (distance c) (fresh (dom (heap σ)));
        EvDBSCAN d (delegate_kwargs c);
        EvDBSCAN_fit d D ] ∧
    attr σ' clone "labels_" = Some L'.
Proof.
  intros HX Hne Hp0 Hp Hcfg HD Hsk HL.
  rewrite (refit_run _ _ _ X0 X p0 p c) by done.
  destruct Hcfg as (i & Hi & Hc).
  destruct σ as [h tr]. cbn [heap trace] in *.
  set (a := fresh (dom h)).
  set (h1 := <[a := OPanel (merge_panels p0 p)]> h).
  set (cl := fresh (dom h1)).
  set (i0 := Instance (init_attrs c ∅) (init_tags (distance c))).
  set (h2 := <[cl := OInstance i0]> h1).
  set (d := fresh (dom h2)).
  assert (Hcl1 : h1 !! cl = None) by apply fresh_not_live.
  assert (Hcla : cl ≠ a).
  { apply fresh_ne_live. unfold h1. rewrite lookup_insert_eq. eauto. }
  assert (Hcl : h !! cl = None).
  { unfold h1 in Hcl1. by rewrite lookup_insert_ne in Hcl1. }
  erewrite bind_ok by apply construct_ok.
  cbn [heap trace]. fold h1 cl i0 h2.
  rewrite bind_eq.
  erewrite fit_run; [| apply instance_at_insert_eq | apply init_attrs_config].
  unfold fit_outcome. cbn [heap trace].
  assert (Hpa : panel_at (State h2 (tr ++ [EvWarn refit_warning self])) a
                = Some (merge_panels p0 p)).
  { unfold panel_at, h2, h1. cbn [heap].
    by rewrite lookup_insert_ne, lookup_insert_eq by done. }
  rewrite Hpa, HD, Hsk. fold d.
  erewrite bind_ok by (apply setattr_ok, instance_at_insert_eq).
  cbn [heap trace attrs tags_dynamic]. rewrite insert_insert_eq.
  set (a3 := <["_is_fitted" := VBool true]> _).
  assert (HL3 : a3 !! "labels_" = Some L').
  { unfold a3. rewrite lookup_insert_ne by done.
    rewrite copy_fitted_lookup, decide_True.
    - by erewrite lookup_union_Some_l by done.
    - unfold DELEGATED_FITTED_PARAMS.
      do 2 apply list_elem_of_further. apply list_elem_of_here. }
  unfold ret. cbn beta iota.
  erewrite getattr_ok by (rewrite attr_insert_eq; exact HL3).
  eexists _, cl, d. split; [reflexivity |]. split; [done |].
  split; [cbn [trace]; by rewrite <- app_assoc |].
  by rewrite attr_insert_eq.
Qed.

(** C3, at an input where the claim as stated fails.  The adapter is
    fitted on object 1; object 2 is another object holding the same panel.
    [_predict] on object 2 returns labels equal to the stored ones, element
    by element, although object 2 is not the stored object: the labels
    returned do not tell the two paths apart. *)
Lemma predict_value_equal_object_same_labels :
  let c := {| distance := VCallable zero_dist;
              eps := VFloat (1 # 2);
              min_samples := VInt 1;
              algorithm := VStr "auto";
              leaf_size := VInt 30;
              n_jobs := VNone |} in
  let σ := ((a ← TimeSeriesDBSCAN c; fit one_cluster_fit a 1%positive)
              store0).1 in
  attr σ 4%positive "_X" = Some (VRef 1%positive) ∧
  attr σ 4%positive "labels_" = Some (VIntArray [0; 0]%Z) ∧
  panel_at σ 2%positive = panel_at σ 1%positive ∧
  ¬ ((_predict one_cluster_fit 4%positive 2%positive σ).2
       = Ok (VIntArray [0; 0]%Z) ↔ 2%positive = 1%positive).
Proof.
  cbn zeta.
  split; [vm_compute; reflexivity |].
  split; [vm_compute; reflexivity |].
  split; [vm_compute; reflexivity |].
  intros [Hif _]. discriminate Hif. vm_compute; reflexivity.
Qed.

(** C3, amended.  On an adapter that holds fit data [X0] and labels [L],
    [_predict] returns [L] at once, leaving the store and the trace as they
    are, exactly when [X] is the object [X0] itself.  On any other panel
    object, one holding the same panel included, it takes the refit: it
    builds the merged panel, warns, constructs a new adapter with the same
    configuration, fits it on the merged panel and returns its labels; when
    the distance and the delegate succeed, the distance has been called on
    the merged panel, a new delegate built and fitted, and the labels
    returned are that delegate's, while the adapter keeps [L]. *)
Theorem predict_identity_shortcut sklearn_fit σ self X0 L X :
  attr σ self "_X" = Some (VRef X0) →
  attr σ self "labels_" = Some L →
  (_predict sklearn_fit self X σ = (σ, Ok L) ↔ X = X0) ∧
  (X ≠ X0 →
   ∀ p0 p c,
     panel_at σ X0 = Some p0 →
     panel_at σ X = Some p →
     has_config σ self c →
     ∃ all_X,
       heap σ !! all_X = None ∧
       _predict sklearn_fit self X σ =
         (clone ← TimeSeriesDBSCAN c;
          fitted_clone ← fit sklearn_fit clone all_X;
          getattr fitted_clone "labels_")
           (State (<[all_X := OPanel (merge_panels p0 p)]> (heap σ))
                  (trace σ ++ [EvWarn refit_warning self])) ∧
       ∀ D fitted L',
         applied (distance c) (Some (merge_panels p0 p)) = Ok D →
         sklearn_fit (delegate_kwargs c) D = Ok fitted →
         fitted !! "labels_" = Some L' →
         ∃ σ' clone d,
           _predict sklearn_fit self X σ = (σ', Ok L') ∧
           heap σ !! clone = None ∧
           trace σ' = trace σ ++
             [ EvWarn refit_warning self;
               EvCall (distance c) all_X;
               EvDBSCAN d (delegate_kwargs c);
               EvDBSCAN_fit d D ] ∧
           attr σ' clone "labels_" = Some L' ∧
           attr σ' self "labels_" = Some L).
Proof.
  intros HX HL.
  assert (Hslow : X ≠ X0 → ∀ p0 p,
            panel_at σ X0 = Some p0 → panel_at σ X = Some p →
            ∃ rest, trace (_predict sklearn_fit self X σ).1 =
                      trace σ ++ EvWarn refit_warning self :: rest).
  { intros Hne p0 p Hp0 Hp.
    rewrite (_predict_refit _ _ _ X0 X p0 p) by done.
    match goal with |- context [(_ ≫= _) ?s] => set (σ1 := s) end.
    destruct (clone_fit_effect sklearn_fit self (fresh (dom (heap σ))) σ1)
      as ((rest & Htr) & _).
    exists rest. rewrite Htr. unfold σ1. cbn [trace].
    by rewrite <- app_assoc. }
  split; [split |].
  - intros Hret. destruct (decide (X = X0)) as [|Hne]; [done |]. exfalso.
    destruct (panel_at σ X0) as [p0|] eqn:Hp0.
    2:{ revert Hret. unfold _predict.
        erewrite bind_ok by (by apply getattr_ok).
        cbn [py_is]. rewrite bool_decide_eq_false_2 by done.
        erewrite bind_err; [done |].
        unfold update_data. apply bind_err. unfold get_panel. by rewrite Hp0. }
    destruct (panel_at σ X) as [p|] eqn:Hp.
    2:{ revert Hret. unfold _predict.
        erewrite bind_ok by (by apply getattr_ok).
        cbn [py_is]. rewrite bool_decide_eq_false_2 by done.
        erewrite bind_err; [done |].
        unfold update_data. erewrite bind_ok by (by apply get_panel_ok).
        apply bind_err. unfold get_panel. by rewrite Hp. }
    destruct (Hslow Hne p0 p) as (rest & Htr); [done | done |].
    rewrite Hret in Htr. cbn [fst] in Htr.
    apply (f_equal length) in Htr. rewrite length_app in Htr.
    cbn [length] in Htr. lia.
  - intros ->. rewrite _predict_same by done. by apply getattr_ok.
  - intros Hne p0 p c Hp0 Hp Hcfg.
    exists (fresh (dom (heap σ))). split; [apply fresh_not_live |].
    split; [by apply (refit_run _ _ _ X0) |].
    intros D fitted L' HD Hsk HL'.
    destruct (refit_success sklearn_fit σ self X0 X p0 p c D fitted L')
      as (σ' & clone & d & Hret & Hclone & Htr & Hlab); try done.
    exists σ', clone, d. split; [done |]. split; [done |].
    split; [done |]. split; [done |].
    destruct (_predict_effect sklearn_fit self X σ) as [_ Hframe].
    rewrite Hret in Hframe. cbn [fst] in Hframe.
    assert (Hself : heap σ' !! self = heap σ !! self).
    { apply Hframe. unfold attr, instance_at in HL.
      destruct (heap σ !! self); [eauto | done]. }
    unfold attr, instance_at in *. by rewrite Hself.
Qed.

Lemma predict_identity_shortcut_witness :
  let c := default_config (VCallable zero_dist) in
  let σ := ((a ← TimeSeriesDBSCAN c; fit one_cluster_fit a 1%positive)
              store0).1 in
  (_predict one_cluster_fit 4%positive 1%positive σ
     = (σ, Ok (VIntArray [0; 0]%Z)) ↔ 1%positive = 1%positive) ∧
  (_predict one_cluster_fit 4%positive 2%positive σ
     = (σ, Ok (VIntArray [0; 0]%Z)) ↔ 2%positive = 1%positive) ∧
  ∃ σ' all_X d,
    _predict one_cluster_fit 4%positive 2%positive σ
      = (σ', Ok (VIntArray [0; 0]%Z)) ∧
    trace σ' = trace σ ++
      [ EvWarn refit_warning 4%positive;
        EvCall (VCallable zero_dist) all_X;
        EvDBSCAN d (delegate_kwargs c);
        EvDBSCAN_fit d (replicate 2 (replicate 2 (0 # 1)%Q)) ].
Proof.
  cbn zeta.
  set (c := default_config (VCallable zero_dist)).
  set (σ := ((a ← TimeSeriesDBSCAN c; fit one_cluster_fit a 1%positive)
               store0).1).
  assert (HX : attr σ 4%positive "_X" = Some (VRef 1%positive))
    by (vm_compute; reflexivity).
  assert (HL : attr σ 4%positive "labels_" = Some (VIntArray [0; 0]%Z))
    by (vm_compute; reflexivity).
  split; [| split].
  - apply (predict_identity_shortcut one_cluster_fit σ 4%positive 1%positive
             (VIntArray [0; 0]%Z) 1%positive HX HL).
  - apply (predict_identity_shortcut one_cluster_fit σ 4%positive 1%positive
             (VIntArray [0; 0]%Z) 2%positive HX HL).
  - destruct (predict_identity_shortcut one_cluster_fit σ 4%positive
                1%positive (VIntArray [0; 0]%Z) 2%positive HX HL)
      as [_ Hslow].
    destruct (Hslow ltac:(discriminate) panel_ab panel_ab c)
      as (all_X & _ & _ & Hok).
    + vm_compute; reflexivity.
    + vm_compute; reflexivity.
    + eexists. split; [vm_compute; reflexivity |].
      repeat split; vm_compute; reflexivity.
    + destruct (Hok (replicate 2 (replicate 2 (0 # 1)%Q))
                  (list_to_map
                     [ ("core_sample_indices_", VIntArray [0; 1]%Z);
                       ("components_",
                        VArray (replicate 2 (replicate 2 (0 # 1)%Q)));
                       ("labels_", VIntArray [0; 0]%Z) ])
                  (VIntArray [0; 0]%Z))
        as (σ' & clone & d & Hret & _ & Htr & _); try reflexivity.
      exists σ', all_X, d. split; [exact Hret | exact Htr].
Defined.

(** ** Predicting on new data leaves the adapter alone *)

(** C5.  On an adapter that holds fit data [X0], [_predict] on any other
    object leaves every attribute and tag of the adapter, the fit data, and
    every other object alive before the call as they were, however the call
    ends. *)
Theorem predict_new_data_preserves_state sklearn_fit σ self X0 X :
  attr σ self "_X" = Some (VRef X0) →
  X ≠ X0 →
  let σ' := (_predict sklearn_fit self X σ).1 in
  heap σ' !! self = heap σ !! self ∧
  (∀ name, attr σ' self name = attr σ self name) ∧
  panel_at σ' X0 = panel_at σ X0 ∧
  (∀ o, is_Some (heap σ !! o) → heap σ' !! o = heap σ !! o).
Proof.
  intros HX Hne σ'.
  destruct (_predict_effect sklearn_fit self X σ) as [_ Hframe].
  fold σ' in Hframe.
  assert (Hself : heap σ' !! self = heap σ !! self).
  { apply Hframe. unfold attr, instance_at in HX.
    destruct (heap σ !! self); [eauto | done]. }
  split; [done |]. split; [| split; [| done]].
  - intros name. unfold attr, instance_at. by rewrite Hself.
  - unfold panel_at. destruct (heap σ !! X0) as [ob|] eqn:H0.
    + rewrite Hframe, H0 by (rewrite H0; eauto). done.
    + destruct (heap σ' !! X0) as [[p|]|] eqn:H0'; [| done | done].
      exfalso. revert H0'. subst σ'.
      unfold _predict. erewrite bind_ok by (by apply getattr_ok).
      cbn [py_is]. rewrite bool_decide_eq_false_2 by done.
      erewrite bind_err; [cbn [fst]; by rewrite H0 |].
      unfold update_data. apply bind_err. unfold get_panel, panel_at.
      by rewrite H0.
Qed.

Lemma predict_new_data_preserves_state_witness :
  let σ := ((c ← TimeSeriesDBSCAN (default_config (VCallable zero_dist));
             fit one_cluster_fit c 1%positive) store0).1 in
  let σ' := (_predict one_cluster_fit 4%positive 2%positive σ).1 in
  heap σ' !! 4%positive = heap σ !! 4%positive ∧
  (∀ name, attr σ' 4%positive name = attr σ 4%positive name) ∧
  panel_at σ' 1%positive = panel_at σ 1%positive ∧
  (∀ o, is_Some (heap σ !! o) → heap σ' !! o = heap σ !! o).
Proof.
  cbn zeta.
  apply (predict_new_data_preserves_state one_cluster_fit _ 4%positive
           1%positive 2%positive).
  - vm_compute; reflexivity.
  - discriminate.
Defined.

(** ** Predicting on new data: the refit *)

Lemma merge_panels_prefix X X_new : take (length X) (merge_panels X X_new) = X.
Proof. unfold merge_panels. by rewrite take_app_length. Qed.

Lemma merge_panels_elem X X_new inst :
  inst ∈ merge_panels X X_new ↔
  inst ∈ X ∨ (inst ∈ X_new ∧ inst.1 ∉ X.*1).
Proof.
  unfold merge_panels. rewrite elem_of_app, list_elem_of_filter. tauto.
Qed.

(** C4.  On an adapter that holds fit data [X0] and configuration [c],
    [_predict] on another panel object [X] emits the warning, builds the
    merged panel (the fit data, then the instances of [X] whose index the
    fit data does not have), constructs a new adapter with configuration
    [c], fits it on the merged panel, and returns the labels the delegate
    gave for it. *)
Theorem predict_new_data_refits sklearn_fit σ self X0 X p0 p c D fitted L :
  attr σ self "_X" = Some (VRef X0) →
  X ≠ X0 →
  panel_at σ X0 = Some p0 →
  panel_at σ X = Some p →
  has_config σ self c →
  applied (distance c) (Some (merge_panels p0 p)) = Ok D →
  sklearn_fit (delegate_kwargs c) D = Ok fitted →
  fitted !! "labels_" = Some L →
  ∃ σ' all_X clone d,
    _predict sklearn_fit self X σ = (σ', Ok L) ∧
    heap σ !! all_X = None ∧
    heap σ !! clone = None ∧
    panel_at σ' all_X = Some (p0 ++ filter (λ inst, inst.1 ∉ p0.*1) p) ∧
    trace σ' = trace σ ++
      [ EvWarn refit_warning self;
        EvCall (distance c) all_X;
        EvDBSCAN d (delegate_kwargs c);
        EvDBSCAN_fit d D ] ∧
    has_config σ' clone c ∧
    attr σ' clone "_X" = Some (VRef all_X) ∧
    attr σ' clone "labels_" = Some L.
Proof.
  intros HX Hne Hp0 Hp (i & Hi & Hc) HD Hsk HL.
  rewrite (_predict_refit _ _ _ X0 X p0 p) by done.
  destruct σ as [h tr]. cbn [heap trace] in *.
  set (a := fresh (dom h)).
  set (h1 := <[a := OPanel (merge_panels p0 p)]> h).
  set (cl := fresh (dom h1)).
  set (i0 := Instance (init_attrs c ∅) (init_tags (distance c))).
  set (h2 := <[cl := OInstance i0]> h1).
  set (d := fresh (dom h2)).
  assert (Ha : h !! a = None) by apply fresh_not_live.
  assert (Hcl1 : h1 !! cl = None) by apply fresh_not_live.
  assert (Hcla : cl ≠ a).
  { apply fresh_ne_live. unfold h1. rewrite lookup_insert_eq. eauto. }
  assert (Hcl : h !! cl = None).
  { unfold h1 in Hcl1. by rewrite lookup_insert_ne in Hcl1. }
  assert (Hda : d ≠ a).
  { apply fresh_ne_live. unfold h2, h1.
    rewrite lookup_insert_ne, lookup_insert_eq by done. eauto. }
  assert (Hdcl : d ≠ cl).
  { apply fresh_ne_live. unfold h2. rewrite lookup_insert_eq. eauto. }
  assert (Hself : a ≠ self).
  { apply fresh_ne_live. by apply (instance_is_live _ _ _ Hi). }
  erewrite bind_ok.
  2:{ unfold clone. erewrite bind_ok; [apply construct_ok |].
      apply has_config_get_params. exists i. split; [| done].
      unfold h1. rewrite instance_at_insert_ne by done. exact Hi. }
  cbn [heap trace]. fold h1 cl i0 h2.
  rewrite bind_eq.
  erewrite fit_run; [| apply instance_at_insert_eq | apply init_attrs_config].
  unfold fit_outcome. cbn [heap trace].
  assert (Hpa : panel_at (State h2 (tr ++ [EvWarn refit_warning self])) a
                = Some (merge_panels p0 p)).
  { unfold panel_at, h2, h1. cbn [heap].
    by rewrite lookup_insert_ne, lookup_insert_eq by done. }
  rewrite Hpa, HD, Hsk. fold d.
  erewrite bind_ok by (apply setattr_ok, instance_at_insert_eq).
  cbn [heap trace attrs tags_dynamic]. rewrite insert_insert_eq.
  set (a3 := <["_is_fitted" := VBool true]> _).
  assert (HL3 : a3 !! "labels_" = Some L).
  { unfold a3. rewrite lookup_insert_ne by done.
    rewrite copy_fitted_lookup, decide_True.
    - by erewrite lookup_union_Some_l by done.
    - unfold DELEGATED_FITTED_PARAMS.
      do 2 apply list_elem_of_further. apply list_elem_of_here. }
  assert (Hout : ∀ k, k ∉ fit_keys → a3 !! k = init_attrs c ∅ !! k).
  { intros k (? & ? & ? & ?)%not_fit_key. unfold a3.
    rewrite lookup_insert_ne, copy_fitted_other by done.
    by rewrite !lookup_insert_ne. }
  unfold ret. cbn beta iota.
  erewrite getattr_ok by (rewrite attr_insert_eq; exact HL3).
  eexists _, a, cl, d. split; [reflexivity |].
  split; [done |]. split; [done |]. split.
  { unfold panel_at, h2, h1. cbn [heap].
    by rewrite !lookup_insert_ne, lookup_insert_eq by done. }
  split; [cbn [trace]; by rewrite <- app_assoc |].
  split.
  { eexists. split; [apply instance_at_insert_eq |]. cbn [attrs].
    eapply holds_config_outside; [exact Hout | apply init_attrs_config]. }
  rewrite !attr_insert_eq. cbn [attrs]. split; [| done].
  unfold a3. rewrite lookup_insert_ne by done.
  rewrite copy_fitted_other.
  - rewrite lookup_insert_ne by done. apply lookup_insert_eq.
  - unfold DELEGATED_FITTED_PARAMS.
    by repeat (apply not_elem_of_cons; split; [done |]); apply not_elem_of_nil.
Qed.

Lemma predict_new_data_refits_witness :
  let c := default_config (VCallable zero_dist) in
  let σ := ((a ← TimeSeriesDBSCAN c; fit one_cluster_fit a 1%positive)
              store0).1 in
  ∃ σ' all_X clone d,
    _predict one_cluster_fit 4%positive 3%positive σ
      = (σ', Ok (VIntArray [0; 0; 0]%Z)) ∧
    panel_at σ' all_X = Some [(0, series_a); (1, series_b); (2, series_c)] ∧
    trace σ' = trace σ ++
      [ EvWarn refit_warning 4%positive;
        EvCall (VCallable zero_dist) all_X;
        EvDBSCAN d (delegate_kwargs c);
        EvDBSCAN_fit d (replicate 3 (replicate 3 (0 # 1)%Q)) ] ∧
    attr σ' clone "labels_" = Some (VIntArray [0; 0; 0]%Z) ∧
    attr σ 4%positive "labels_" = Some (VIntArray [0; 0]%Z).
Proof.
  cbn zeta.
  set (c := default_config (VCallable zero_dist)).
  set (σ := ((a ← TimeSeriesDBSCAN c; fit one_cluster_fit a 1%positive)
               store0).1).
  destruct (predict_new_data_refits one_cluster_fit σ 4%positive 1%positive
              3%positive panel_ab panel_bc c
              (replicate 3 (replicate 3 (0 # 1)%Q))
              (list_to_map
                 [ ("core_sample_indices_", VIntArray [0; 1; 2]%Z);
                   ("components_",
                    VArray (replicate 3 (replicate 3 (0 # 1)%Q)));
                   ("labels_", VIntArray [0; 0; 0]%Z) ])
              (VIntArray [0; 0; 0]%Z))
    as (σ' & all_X & clone & d & Hret & _ & _ & Hpanel & Htr & _ & _ & HL).
  - vm_compute; reflexivity.
  - discriminate.
  - vm_compute; reflexivity.
  - vm_compute; reflexivity.
  - eexists. split; [vm_compute; reflexivity |].
    repeat split; vm_compute; reflexivity.
  - reflexivity.
  - reflexivity.
  - reflexivity.
  - exists σ', all_X, clone, d.
    split; [exact Hret |]. split; [exact Hpanel |]. split; [exact Htr |].
    split; [exact HL |]. vm_compute; reflexivity.
Defined.

(** * Further properties of the module *)

(** ** The constructor *)

(** Construction never fails and validates nothing: whatever the six
    values, the new object is one no live object is, the six attributes
    read back as given, [dbscan_] is None, no fitted attribute exists yet,
    nothing is called, and every other object is left as it was. *)
Theorem construct_stores_parameters σ c :
  ∃ self σ',
    TimeSeriesDBSCAN c σ = (σ', Ok self) ∧
    heap σ !! self = None ∧
    has_config σ' self c ∧
    attr σ' self "dbscan_" = Some VNone ∧
    attr σ' self "_X" = None ∧
    attr σ' self "labels_" = None ∧
    attr σ' self "core_sample_indices_" = None ∧
    trace σ' = trace σ ∧
    ∀ o, is_Some (heap σ !! o) → heap σ' !! o = heap σ !! o.
Proof.
  eexists _, _. split; [apply construct_ok |].
  split; [apply fresh_not_live |].
  split.
  { eexists. split; [apply instance_at_insert_eq | apply init_attrs_config]. }
  rewrite !attr_insert_eq. cbn [attrs heap trace].
  do 4 (split; [by unfold init_attrs; simplify_map_eq |]).
  split; [done |]. intros o Ho.
  rewrite lookup_insert_ne; [done |]. by apply fresh_ne_live.
Qed.

Lemma tags_touched_init_tags d name :
  name ∉ tags_touched d → (init_tags d ∪ _tags) !! name = _tags !! name.
Proof.
  unfold tags_touched, init_tags. intros Hn.
  destruct d; cbn in Hn |- *;
    try by rewrite (left_id_L ∅ (∪)).
  - rewrite (right_id_L ∅ (∪)).
    apply lookup_union_r. unfold tags_to_set. cbn.
    apply not_elem_of_cons in Hn as [? Hn].
    apply not_elem_of_cons in Hn as [? _].
    by rewrite !lookup_insert_ne.
  - rewrite (right_id_L ∅ (∪)).
    apply lookup_union_r. unfold select_tags, tags_to_clone in *.
    apply not_elem_of_cons in Hn as [? Hn].
    apply not_elem_of_cons in Hn as [? Hn].
    apply not_elem_of_cons in Hn as [? _].
    cbn [foldr].
    repeat (destruct (tags !! _); rewrite ?lookup_insert_ne by done); done.
Qed.

(** The constructor alters no tag but those of its two branches: the three
    cloned ones for a pairwise transformer, the inner type and unequal
    length for a string, none for anything else.  Every other tag reads as
    the class declares it. *)
Theorem construct_alters_only_branch_tags σ c name :
  name ∉ tags_touched (distance c) →
  ∃ self σ',
    TimeSeriesDBSCAN c σ = (σ', Ok self) ∧
    get_tag self name σ' = (σ', class_tag name).
Proof.
  intros Hn. eexists _, _. split; [apply construct_ok |].
  erewrite get_tag_run by apply instance_at_insert_eq.
  cbn [tags_dynamic]. unfold class_tag.
  by rewrite tags_touched_init_tags.
Qed.

Lemma construct_alters_only_branch_tags_witness :
  (∃ self σ',
     TimeSeriesDBSCAN (default_config (VCallable zero_dist)) store0
       = (σ', Ok self) ∧
     get_tag self "capability:unequal_length" σ' = (σ', Ok (TagBool true))) ∧
  (∃ self σ',
     TimeSeriesDBSCAN (default_config (VStr "euclidean")) store0
       = (σ', Ok self) ∧
     get_tag self "capability:missing_values" σ' = (σ', Ok (TagBool true))) ∧
  (∃ self σ',
     TimeSeriesDBSCAN (default_config (VPairwise pairwise_tags_equal_length
                                                 zero_dist)) store0
       = (σ', Ok self) ∧
     get_tag self "X_inner_mtype" σ'
       = (σ', Ok (TagList ["pd-multiindex"; "numpy3D"]))).
Proof.
  split; [| split].
  - apply (construct_alters_only_branch_tags store0
             (default_config (VCallable zero_dist))
             "capability:unequal_length").
    apply not_elem_of_nil.
  - apply (construct_alters_only_branch_tags store0
             (default_config (VStr "euclidean"))
             "capability:missing_values").
    cbn. by repeat (apply not_elem_of_cons; split; [done |]);
      apply not_elem_of_nil.
  - apply (construct_alters_only_branch_tags store0
             (default_config (VPairwise pairwise_tags_equal_length zero_dist))
             "X_inner_mtype").
    cbn. by repeat (apply not_elem_of_cons; split; [done |]);
      apply not_elem_of_nil.
Defined.

(** ** The constructor called with keyword arguments *)

Lemma bind_arguments_distance_only d :
  bind_arguments {[ "distance" := d ]} = Ok (default_config d).
Proof.
  unfold bind_arguments. rewrite map_to_list_singleton. cbn [forallb fst].
  rewrite bool_decide_eq_true_2 by apply list_elem_of_here.
  cbn [andb]. rewrite lookup_singleton_eq.
  by rewrite !lookup_singleton_ne.
Qed.

(** Each entry of [get_test_params], for whatever parameter set is asked,
    is accepted by the constructor and gives the adapter built from one of
    the three distances with every other parameter at its default. *)
Theorem test_params_construct A D E parameter_set params σ :
  params ∈ get_test_params A D E parameter_set →
  ∃ d, d ∈ [A; D; E] ∧
       TimeSeriesDBSCAN_kwargs params σ
         = TimeSeriesDBSCAN (default_config d) σ.
Proof.
  unfold get_test_params. cbn zeta. intros Hin.
  apply elem_of_cons in Hin as [->|Hin];
    [| apply elem_of_cons in Hin as [->|Hin];
       [| apply elem_of_cons in Hin as [->|Hin]; [| by inversion Hin]]];
    unfold TimeSeriesDBSCAN_kwargs; rewrite bind_arguments_distance_only.
  - exists A. split; [apply list_elem_of_here | done].
  - exists D. split; [apply list_elem_of_further, list_elem_of_here | done].
  - exists E. split; [do 2 apply list_elem_of_further; apply list_elem_of_here
                     | done].
Qed.

Lemma test_params_construct_witness :
  ∃ d, d ∈ [ VPairwise pairwise_tags_equal_length zero_dist;
             VCallable zero_dist; VCallable no_missing_dist ] ∧
       TimeSeriesDBSCAN_kwargs {[ "distance" := VCallable zero_dist ]} store0
         = TimeSeriesDBSCAN (default_config d) store0.
Proof.
  apply (test_params_construct
           (VPairwise pairwise_tags_equal_length zero_dist)
           (VCallable zero_dist) (VCallable no_missing_dist) "default").
  unfold get_test_params. cbn zeta.
  apply list_elem_of_further, list_elem_of_here.
Defined.

(** ** What [_fit] calls *)

(** At every [_fit] in the life of an adapter whose distance can be
    called, the distance is called once, on the panel given, whether it
    then returns or raises; and whatever matrix [D] it returns, square or
    not, symmetric or not, the next thing that happens is that the delegate
    is constructed and its fit is called on that very [D]. *)
Theorem fit_calls_callable_distance_once sklearn_fit self c b σ X :
  lifecycle sklearn_fit self c b σ →
  py_callable (distance c) = true →
  ∃ new,
    trace (_fit sklearn_fit self X σ).1 = trace σ ++ new ∧
    distance_calls new = [(distance c, X)] ∧
    ∀ D, (py_call (distance c) X σ).2 = Ok D →
         ∃ d, new = [ EvCall (distance c) X;
                      EvDBSCAN d (delegate_kwargs c);
                      EvDBSCAN_fit d D ].
Proof.
  intros Hlife Hcall.
  destruct (lifecycle_fit_run _ _ _ _ _ X Hlife) as (i & Hi & ->).
  rewrite py_call_run. cbn [snd]. unfold fit_outcome, call_events.
  rewrite Hcall.
  destruct (applied (distance c) (panel_at σ X)) as [D|e].
  - destruct (sklearn_fit (delegate_kwargs c) D);
      (eexists; split; [reflexivity |]; split; [reflexivity |]);
      intros D' [= <-]; eauto.
  - eexists; split; [reflexivity |]; split; [reflexivity |]. by intros D'.
Qed.

Lemma fit_calls_callable_distance_once_witness :
  let c := default_config (VCallable ragged_dist) in
  let σ := (TimeSeriesDBSCAN c store0).1 in
  ∃ d, trace (_fit one_cluster_fit 4%positive 1%positive σ).1 =
         [ EvCall (VCallable ragged_dist) 1%positive;
           EvDBSCAN d (delegate_kwargs c);
           EvDBSCAN_fit d ragged_matrix ].
Proof.
  cbn zeta.
  destruct (fit_calls_callable_distance_once one_cluster_fit 4%positive
              (default_config (VCallable ragged_dist)) false
              (TimeSeriesDBSCAN (default_config (VCallable ragged_dist))
                                store0).1 1%positive)
    as (new & Htr & _ & HD).
  - apply (life_new _ _ _ store0). reflexivity.
  - reflexivity.
  - destruct (HD ragged_matrix) as (d & ->); [reflexivity |].
    exists d. exact Htr.
Defined.

(** ** How [_fit] fails *)

(** An exception of the distance leaves [_fit] as it is, unwrapped.  By
    then [_X] already names the new panel; nothing else on the adapter has
    changed, no delegate has been built, and no other object is touched.
    The trace holds the call of the distance, if it could be called. *)
Theorem fit_distance_error_propagates sklearn_fit self c b σ X e :
  lifecycle sklearn_fit self c b σ →
  (py_call (distance c) X σ).2 = Err e →
  ∃ σ',
    _fit sklearn_fit self X σ = (σ', Err e) ∧
    trace σ' = trace σ ++ call_events (distance c) X ∧
    attr σ' self "_X" = Some (VRef X) ∧
    (∀ name, name ≠ "_X" → attr σ' self name = attr σ self name) ∧
    (∀ o, o ≠ self → heap σ' !! o = heap σ !! o).
Proof.
  intros Hlife He.
  destruct (lifecycle_fit_run _ _ _ _ _ X Hlife) as (i & Hi & ->).
  rewrite py_call_run in He. cbn [snd] in He.
  unfold fit_outcome. rewrite He.
  eexists. split; [reflexivity |]. split; [reflexivity |].
  rewrite attr_insert_eq. cbn [attrs heap].
  split; [apply lookup_insert_eq |]. split.
  - intros name Hn. rewrite attr_insert_eq, (attr_instance _ _ _ _ Hi).
    cbn [attrs]. by rewrite lookup_insert_ne.
  - intros o Ho. by rewrite lookup_insert_ne.
Qed.

Lemma fit_distance_error_propagates_witness :
  let c := default_config (VCallable no_missing_dist) in
  let σ := (TimeSeriesDBSCAN c store0).1 in
  ∃ σ',
    _fit one_cluster_fit 4%positive 3%positive σ
      = (σ', Err (Raised "ValueError")) ∧
    trace σ' = [EvCall (VCallable no_missing_dist) 3%positive] ∧
    attr σ' 4%positive "_X" = Some (VRef 3%positive) ∧
    attr σ' 4%positive "dbscan_" = Some VNone.
Proof.
  cbn zeta.
  destruct (fit_distance_error_propagates one_cluster_fit 4%positive
              (default_config (VCallable no_missing_dist)) false
              (TimeSeriesDBSCAN (default_config (VCallable no_missing_dist))
                                store0).1
              3%positive (Raised "ValueError"))
    as (σ' & Hfit & Htr & HX & Hother & _).
  - apply (life_new _ _ _ store0). reflexivity.
  - reflexivity.
  - exists σ'. split; [exact Hfit |]. split; [exact Htr |].
    split; [exact HX |]. rewrite Hother by done. reflexivity.
Defined.

(** An exception of the delegate's fit leaves [_fit] as it is, too.  By
    then [dbscan_] names the delegate just built, a new object, and [_X]
    the new panel; no fitted attribute has been copied, so the labels of an
    earlier fit, if any, are still there. *)
Theorem fit_delegate_error_propagates sklearn_fit self c b σ X D e :
  lifecycle sklearn_fit self c b σ →
  (py_call (distance c) X σ).2 = Ok D →
  sklearn_fit (delegate_kwargs c) D = Err e →
  ∃ σ' d,
    _fit sklearn_fit self X σ = (σ', Err e) ∧
    heap σ !! d = None ∧
    attr σ' self "dbscan_" = Some (VRef d) ∧
    attr σ' self "_X" = Some (VRef X) ∧
    (∀ name, name ≠ "_X" → name ≠ "dbscan_" →
             attr σ' self name = attr σ self name).
Proof.
  intros Hlife HD Hsk.
  destruct (lifecycle_fit_run _ _ _ _ _ X Hlife) as (i & Hi & ->).
  rewrite py_call_run in HD. cbn [snd] in HD.
  unfold fit_outcome. rewrite HD, Hsk.
  eexists _, _. split; [reflexivity |]. split; [apply fresh_not_live |].
  rewrite !attr_insert_eq. cbn [attrs].
  split; [apply lookup_insert_eq |].
  split; [by rewrite lookup_insert_ne, lookup_insert_eq |].
  intros name ? ?. rewrite attr_insert_eq, (attr_instance _ _ _ _ Hi).
  cbn [attrs]. by rewrite !lookup_insert_ne.
Qed.

Lemma fit_delegate_error_propagates_witness :
  let c := default_config (VCallable zero_dist) in
  let σ := (TimeSeriesDBSCAN c store0).1 in
  ∃ σ' d,
    _fit failing_fit 4%positive 1%positive σ
      = (σ', Err (Raised "InvalidParameterError")) ∧
    attr σ' 4%positive "dbscan_" = Some (VRef d) ∧
    attr σ' 4%positive "labels_" = None.
Proof.
  cbn zeta.
  destruct (fit_delegate_error_propagates failing_fit 4%positive
              (default_config (VCallable zero_dist)) false
              (TimeSeriesDBSCAN (default_config (VCallable zero_dist))
                                store0).1
              1%positive (replicate 2 (replicate 2 (0 # 1)%Q))
              (Raised "InvalidParameterError"))
    as (σ' & d & Hfit & _ & Hd & _ & Hother).
  - apply (life_new _ _ _ store0). reflexivity.
  - reflexivity.
  - reflexivity.
  - exists σ', d. split; [exact Hfit |]. split; [exact Hd |].
    rewrite Hother by done. reflexivity.
Defined.

(** The distance is not checked before [fit]: with anything that cannot be
    called, a string or not, the constructor succeeds, and [_fit] raises
    TypeError at the call, with nothing invoked and before any delegate is
    built. *)
Theorem fit_not_callable_raises sklearn_fit σ c X :
  py_callable (distance c) = false →
  ∃ self σ1 σ2,
    TimeSeriesDBSCAN c σ = (σ1, Ok self) ∧
    _fit sklearn_fit self X σ1 = (σ2, Err TypeError) ∧
    trace σ2 = trace σ ∧
    attr σ2 self "dbscan_" = Some VNone.
Proof.
  intros Hcall. eexists _, _, _. split; [apply construct_ok |].
  erewrite _fit_run; [| apply instance_at_insert_eq | apply init_attrs_config].
  unfold fit_outcome, call_events. cbn [distance]. rewrite Hcall.
  assert (Happ : ∀ p, applied (distance c) p = Err TypeError).
  { intros p. by destruct (distance c). }
  rewrite Happ. split; [reflexivity |].
  cbn [trace]. split; [apply app_nil_r |].
  rewrite attr_insert_eq. cbn [attrs].
  rewrite lookup_insert_ne by done. by unfold init_attrs; simplify_map_eq.
Qed.

Lemma fit_not_callable_raises_witness :
  ∃ self σ1 σ2,
    TimeSeriesDBSCAN (default_config (VInt 3)) store0 = (σ1, Ok self) ∧
    _fit one_cluster_fit self 1%positive σ1 = (σ2, Err TypeError) ∧
    trace σ2 = trace store0 ∧
    attr σ2 self "dbscan_" = Some VNone.
Proof.
  apply (fit_not_callable_raises one_cluster_fit store0
           (default_config (VInt 3)) 1%positive).
  reflexivity.
Defined.

(** ** What [_fit] changes and what it leaves *)

(** Whatever its outcome, [_fit] writes on the adapter only: every other
    object alive before the call, panels and earlier delegates included, is
    as it was; and on the adapter the six constructor parameters and all
    tags are as before. *)
Theorem fit_touches_only_adapter sklearn_fit self c b σ X :
  lifecycle sklearn_fit self c b σ →
  let σ' := (_fit sklearn_fit self X σ).1 in
  (∀ o, is_Some (heap σ !! o) → o ≠ self → heap σ' !! o = heap σ !! o) ∧
  has_config σ' self c ∧
  (∀ name, (get_tag self name σ').2 = (get_tag self name σ).2).
Proof.
  intros (i & Hi & Hc & _)%lifecycle_invariant. cbn zeta.
  rewrite (_fit_run _ _ _ _ _ _ Hi Hc). unfold fit_outcome.
  pose proof (instance_is_live _ _ _ Hi) as Hlive.
  pose proof (fresh_ne_live _ _ Hlive) as Hfresh.
  assert (Htag : ∀ (σ' : state) a name,
            instance_at σ' self = Some (Instance a (tags_dynamic i)) →
            (get_tag self name σ').2 = (get_tag self name σ).2).
  { intros σ' a name Hi'.
    by rewrite (get_tag_run _ _ _ _ Hi'), (get_tag_run _ _ _ _ Hi). }
  assert (Hcfg : ∀ (σ' : state) a,
            instance_at σ' self = Some (Instance a (tags_dynamic i)) →
            (∀ k, k ∉ fit_keys → a !! k = attrs i !! k) →
            has_config σ' self c).
  { intros σ' a Hi' Hout. eexists. split; [exact Hi' |].
    by eapply holds_config_outside. }
  destruct σ as [h tr]. cbn [heap trace] in *.
  set (d := fresh (dom h)) in *.
  assert (Hframe : ∀ (x y : object) o, is_Some (h !! o) → o ≠ self →
            <[self := x]> (<[d := y]> h) !! o = h !! o).
  { intros x y o Ho Hne. rewrite lookup_insert_ne by done.
    rewrite lookup_insert_ne; [done |]. by apply fresh_ne_live. }
  destruct (applied _ _) as [D|e]; [destruct (sklearn_fit _ _) as [fitted|e] |];
    cbn [fst heap]; (split; [| split]).
  - by apply Hframe.
  - eapply Hcfg; [apply instance_at_insert_eq |].
    intros k (? & ? & ? & ?)%not_fit_key.
    rewrite copy_fitted_other by done. by rewrite !lookup_insert_ne.
  - intros name. eapply Htag, instance_at_insert_eq.
  - by apply Hframe.
  - eapply Hcfg; [apply instance_at_insert_eq |].
    intros k (? & ? & ? & ?)%not_fit_key. by rewrite !lookup_insert_ne.
  - intros name. eapply Htag, instance_at_insert_eq.
  - intros o _ Ho. by rewrite lookup_insert_ne.
  - eapply Hcfg; [apply instance_at_insert_eq |].
    intros k (? & ? & ? & ?)%not_fit_key. by rewrite !lookup_insert_ne.
  - intros name. eapply Htag, instance_at_insert_eq.
Qed.

Lemma fit_touches_only_adapter_witness :
  let c := default_config (VCallable zero_dist) in
  let σ := (TimeSeriesDBSCAN c store0).1 in
  let σ' := (_fit one_cluster_fit 4%positive 1%positive σ).1 in
  heap σ' !! 1%positive = Some (OPanel panel_ab) ∧
  has_config σ' 4%positive c.
Proof.
  cbn zeta.
  destruct (fit_touches_only_adapter one_cluster_fit 4%positive
              (default_config (VCallable zero_dist)) false
              (TimeSeriesDBSCAN (default_config (VCallable zero_dist))
                                store0).1 1%positive)
    as (Hframe & Hcfg & _).
  - apply (life_new _ _ _ store0). reflexivity.
  - split; [| exact Hcfg].
    rewrite Hframe; [reflexivity | eexists; reflexivity | discriminate].
Defined.

(** ** [_fit] and [_predict] together *)

(** After a successful [_fit] on [X], which returns the adapter itself,
    [dbscan_] names a delegate that did not exist before, and [_predict] on
    the same object [X] returns the labels that delegate holds, with no
    call, no warning and no change. *)
Theorem fit_then_predict_returns_delegate_labels
    sklearn_fit self c b σ X σ' r :
  lifecycle sklearn_fit self c b σ →
  _fit sklearn_fit self X σ = (σ', Ok r) →
  ∃ d, r = self ∧
       heap σ !! d = None ∧
       attr σ' self "dbscan_" = Some (VRef d) ∧
       attr σ' self "_X" = Some (VRef X) ∧
       ∀ L, attr σ' d "labels_" = Some L →
            _predict sklearn_fit self X σ' = (σ', Ok L).
Proof.
  intros Hlife Hfit.
  destruct (lifecycle_fit_run _ _ _ _ _ X Hlife) as (i & Hi & Hrun).
  rewrite Hrun in Hfit. unfold fit_outcome in Hfit.
  pose proof (fresh_ne_live _ _ (instance_is_live _ _ _ Hi)) as Hfresh.
  destruct (applied _ _) as [D|]; [| done].
  destruct (sklearn_fit _ _) as [fitted|]; [| done].
  injection Hfit as <- <-. exists (fresh (dom (heap σ))).
  split; [done |]. split; [apply fresh_not_live |].
  rewrite (attr_insert_ne _ _ self (fresh (dom (heap σ)))) by done.
  rewrite !attr_insert_eq. cbn [attrs].
  assert (HX : copy_fitted DELEGATED_FITTED_PARAMS (fitted ∪ delegate_kwargs c)
                 (<["dbscan_" := VRef (fresh (dom (heap σ)))]>
                    (<["_X" := VRef X]> (attrs i))) !! "_X"
               = Some (VRef X)).
  { rewrite copy_fitted_other.
    - by rewrite lookup_insert_ne, lookup_insert_eq.
    - unfold DELEGATED_FITTED_PARAMS.
      by repeat (apply not_elem_of_cons; split; [done |]);
        apply not_elem_of_nil. }
  split.
  { rewrite copy_fitted_other; [apply lookup_insert_eq |].
    unfold DELEGATED_FITTED_PARAMS.
    by repeat (apply not_elem_of_cons; split; [done |]); apply not_elem_of_nil. }
  split; [exact HX |].
  intros L HL. rewrite _predict_same by (by rewrite attr_insert_eq).
  apply getattr_ok. rewrite attr_insert_eq. cbn [attrs].
  rewrite copy_fitted_lookup, decide_True, HL; [done |].
  unfold DELEGATED_FITTED_PARAMS.
  do 2 apply list_elem_of_further. apply list_elem_of_here.
Qed.

Lemma fit_then_predict_returns_delegate_labels_witness :
  let c := default_config (VCallable zero_dist) in
  let σ := (TimeSeriesDBSCAN c store0).1 in
  let σ' := (_fit one_cluster_fit 4%positive 1%positive σ).1 in
  _predict one_cluster_fit 4%positive 1%positive σ'
    = (σ', Ok (VIntArray [0; 0]%Z)).
Proof.
  cbn zeta.
  destruct (fit_then_predict_returns_delegate_labels one_cluster_fit
              4%positive (default_config (VCallable zero_dist)) false
              (TimeSeriesDBSCAN (default_config (VCallable zero_dist))
                                store0).1 1%positive
              (_fit one_cluster_fit 4%positive 1%positive
                 (TimeSeriesDBSCAN (default_config (VCallable zero_dist))
                                   store0).1).1
              4%positive)
    as (d & _ & _ & Hd & _ & Hpred).
  - apply (life_new _ _ _ store0). reflexivity.
  - vm_compute; reflexivity.
  - apply Hpred.
    assert (d = 5%positive) as ->.
    { assert (Hd' : attr (_fit one_cluster_fit 4%positive 1%positive
                (TimeSeriesDBSCAN (default_config (VCallable zero_dist))
                                  store0).1).1 4%positive "dbscan_"
              = Some (VRef 5%positive)) by (vm_compute; reflexivity).
      rewrite Hd' in Hd. by injection Hd. }
    vm_compute; reflexivity.
Defined.

(** A failed [_fit] has already replaced the stored fit data.  If the
    adapter held labels from an earlier fit, [_predict] on the panel of the
    failed fit then takes the shortcut and returns those earlier labels,
    without a warning. *)
Theorem failed_fit_leaves_stale_labels sklearn_fit self c b σ X σ' e L :
  lifecycle sklearn_fit self c b σ →
  attr σ self "labels_" = Some L →
  _fit sklearn_fit self X σ = (σ', Err e) →
  _predict sklearn_fit self X σ' = (σ', Ok L).
Proof.
  intros Hlife HL Hfit.
  destruct (lifecycle_fit_run _ _ _ _ _ X Hlife) as (i & Hi & Hrun).
  rewrite Hrun in Hfit. unfold fit_outcome in Hfit.
  rewrite (attr_instance _ _ _ _ Hi) in HL.
  destruct (applied _ _) as [D|]; [destruct (sklearn_fit _ _) as [fitted|] |];
    [done | |]; injection Hfit as <- <-.
  - rewrite _predict_same.
    + apply getattr_ok. rewrite attr_insert_eq. cbn [attrs].
      by rewrite !lookup_insert_ne.
    + rewrite attr_insert_eq. cbn [attrs].
      by rewrite lookup_insert_ne, lookup_insert_eq.
  - rewrite _predict_same.
    + apply getattr_ok. rewrite attr_insert_eq. cbn [attrs].
      by rewrite !lookup_insert_ne.
    + rewrite attr_insert_eq. cbn [attrs]. apply lookup_insert_eq.
Qed.

Lemma failed_fit_leaves_stale_labels_witness :
  let c := default_config (VCallable no_missing_dist) in
  let σ := ((a ← TimeSeriesDBSCAN c; fit one_cluster_fit a 1%positive)
              store0).1 in
  let σ' := (_fit one_cluster_fit 4%positive 3%positive σ).1 in
  _fit one_cluster_fit 4%positive 3%positive σ
    = (σ', Err (Raised "ValueError")) ∧
  _predict one_cluster_fit 4%positive 3%positive σ'
    = (σ', Ok (VIntArray [0; 0]%Z)).
Proof.
  cbn zeta.
  set (c := default_config (VCallable no_missing_dist)).
  set (σ := ((a ← TimeSeriesDBSCAN c; fit one_cluster_fit a 1%positive)
               store0).1).
  assert (Hfit : _fit one_cluster_fit 4%positive 3%positive σ
                 = ((_fit one_cluster_fit 4%positive 3%positive σ).1,
                    Err (Raised "ValueError")))
    by (vm_compute; reflexivity).
  split; [exact Hfit |].
  apply (failed_fit_leaves_stale_labels one_cluster_fit 4%positive c true σ
           3%positive _ (Raised "ValueError")).
  - apply (life_fit_ok _ _ _ false (TimeSeriesDBSCAN c store0).1 1%positive
             σ 4%positive).
    + apply (life_new _ _ _ store0). reflexivity.
    + vm_compute; reflexivity.
  - vm_compute; reflexivity.
  - exact Hfit.
Defined.

Lemma fit_copies_fitted_witness :
  let c := default_config (VCallable zero_dist) in
  let σ := (TimeSeriesDBSCAN c store0).1 in
  let σ' := (_fit labels_only_fit 4%positive 1%positive σ).1 in
  attr σ' 4%positive "labels_" = Some (VIntArray [0; 0]%Z) ∧
  attr σ' 4%positive "core_sample_indices_" = None.
Proof.
  cbn zeta.
  set (c := default_config (VCallable zero_dist)).
  set (σ := (TimeSeriesDBSCAN c store0).1).
  set (σ' := (_fit labels_only_fit 4%positive 1%positive σ).1).
  assert (Hlife : lifecycle labels_only_fit 4%positive c false σ).
  { apply (life_new _ _ _ store0). reflexivity. }
  assert (Hfit : _fit labels_only_fit 4%positive 1%positive σ
                 = (σ', Ok 4%positive)) by (vm_compute; reflexivity).
  assert (Hd : attr σ' 4%positive "dbscan_" = Some (VRef 5%positive))
    by (vm_compute; reflexivity).
  split.
  - destruct (fit_copies_fitted labels_only_fit 4%positive c false σ
                1%positive σ' 4%positive "labels_" Hlife Hfit)
      as (d & Hd' & Hcopy).
    { apply list_elem_of_further, list_elem_of_here. }
    rewrite Hd in Hd'. injection Hd' as <-.
    assert (HL : attr σ' 5%positive "labels_" = Some (VIntArray [0; 0]%Z))
      by (vm_compute; reflexivity).
    rewrite HL in Hcopy. exact Hcopy.
  - destruct (fit_copies_fitted labels_only_fit 4%positive c false σ
                1%positive σ' 4%positive "core_sample_indices_" Hlife Hfit)
      as (d & Hd' & Hcopy).
    { apply list_elem_of_here. }
    rewrite Hd in Hd'. injection Hd' as <-.
    assert (HN : attr σ' 5%positive "core_sample_indices_" = None)
      by (vm_compute; reflexivity).
    rewrite HN in Hcopy. rewrite Hcopy. vm_compute; reflexivity.
Defined.

(** The labels are copied only if the delegate has them.  On an adapter
    just constructed, after a [_fit] that succeeds with a delegate that set
    no [labels_], [_predict] on the fit data raises AttributeError; it does
    not refit. *)
Theorem fit_without_labels_then_predict_fails
    sklearn_fit σ0 c σ1 self X σ2 r :
  TimeSeriesDBSCAN c σ0 = (σ1, Ok self) →
  _fit sklearn_fit self X σ1 = (σ2, Ok r) →
  (∀ d, attr σ2 self "dbscan_" = Some (VRef d) → attr σ2 d "labels_" = None) →
  _predict sklearn_fit self X σ2 = (σ2, Err (AttributeError "labels_")).
Proof.
  rewrite construct_ok. intros [= <- <-].
  set (self := fresh (dom (heap σ0))).
  erewrite _fit_run; [| apply instance_at_insert_eq | apply init_attrs_config].
  unfold fit_outcome. cbn [heap trace attrs tags_dynamic].
  destruct (applied _ _) as [D|]; [| done].
  destruct (sklearn_fit _ _) as [fitted|]; [| done].
  intros [= <- <-] Hnone.
  set (d := fresh (dom (<[self := _]> (heap σ0)))) in *.
  assert (Hd : self ≠ d).
  { intros Heq. pose proof (fresh_not_live (<[self := OInstance
      (Instance (init_attrs c ∅) (init_tags (distance c)))]> (heap σ0))) as Hf.
    fold d in Hf. rewrite <- Heq, lookup_insert_eq in Hf. done. }
  specialize (Hnone d).
  rewrite (attr_insert_ne _ _ self d) in Hnone by done.
  rewrite !attr_insert_eq in Hnone. cbn [attrs] in Hnone.
  rewrite copy_fitted_other in Hnone.
  2:{ unfold DELEGATED_FITTED_PARAMS.
      by repeat (apply not_elem_of_cons; split; [done |]);
        apply not_elem_of_nil. }
  rewrite lookup_insert_eq in Hnone. specialize (Hnone eq_refl).
  rewrite _predict_same.
  - apply getattr_err. rewrite attr_insert_eq. cbn [attrs].
    rewrite copy_fitted_lookup, decide_True, Hnone.
    + by unfold init_attrs; simplify_map_eq.
    + unfold DELEGATED_FITTED_PARAMS.
      do 2 apply list_elem_of_further. apply list_elem_of_here.
  - rewrite attr_insert_eq. cbn [attrs]. rewrite copy_fitted_other.
    + by rewrite lookup_insert_ne, lookup_insert_eq.
    + unfold DELEGATED_FITTED_PARAMS.
      by repeat (apply not_elem_of_cons; split; [done |]);
        apply not_elem_of_nil.
Qed.

Lemma fit_without_labels_then_predict_fails_witness :
  let c := default_config (VCallable zero_dist) in
  let σ1 := (TimeSeriesDBSCAN c store0).1 in
  let σ2 := (_fit core_only_fit 4%positive 1%positive σ1).1 in
  _fit core_only_fit 4%positive 1%positive σ1 = (σ2, Ok 4%positive) ∧
  _predict core_only_fit 4%positive 1%positive σ2
    = (σ2, Err (AttributeError "labels_")).
Proof.
  cbn zeta.
  set (c := default_config (VCallable zero_dist)).
  set (σ1 := (TimeSeriesDBSCAN c store0).1).
  set (σ2 := (_fit core_only_fit 4%positive 1%positive σ1).1).
  assert (Hfit : _fit core_only_fit 4%positive 1%positive σ1
                 = (σ2, Ok 4%positive)) by (vm_compute; reflexivity).
  split; [exact Hfit |].
  apply (fit_without_labels_then_predict_fails core_only_fit store0 c σ1
           4%positive 1%positive σ2 4%positive).
  - reflexivity.
  - exact Hfit.
  - intros d Hd.
    assert (Hd' : attr σ2 4%positive "dbscan_" = Some (VRef 5%positive))
      by (vm_compute; reflexivity).
    rewrite Hd' in Hd. injection Hd as <-. vm_compute; reflexivity.
Defined.

(** ** More on [_predict] *)

Lemma _predict_unfitted_attribute_error_witness :
  let σ := (TimeSeriesDBSCAN (default_config (VCallable zero_dist)) store0).1 in
  _predict one_cluster_fit 4%positive 1%positive σ
    = (σ, Err (AttributeError "_X")).
Proof.
  cbn zeta.
  apply (_predict_unfitted_attribute_error one_cluster_fit store0
           (default_config (VCallable zero_dist))).
  reflexivity.
Defined.

(** Predicting on new data does not disturb the shortcut: after
    [_predict] on any panel, however that call ended, [_predict] on the
    stored fit data still returns the stored labels at once. *)
Theorem predict_new_data_keeps_shortcut sklearn_fit σ self X0 L X :
  attr σ self "_X" = Some (VRef X0) →
  attr σ self "labels_" = Some L →
  let σ' := (_predict sklearn_fit self X σ).1 in
  _predict sklearn_fit self X0 σ' = (σ', Ok L).
Proof.
  intros HX HL σ'.
  destruct (_predict_effect sklearn_fit self X σ) as [_ Hframe].
  fold σ' in Hframe.
  assert (Hself : heap σ' !! self = heap σ !! self).
  { apply Hframe. unfold attr, instance_at in HX.
    destruct (heap σ !! self); [eauto | done]. }
  assert (Hattr : ∀ name, attr σ' self name = attr σ self name).
  { intros name. unfold attr, instance_at. by rewrite Hself. }
  rewrite _predict_same by (by rewrite Hattr).
  apply getattr_ok. by rewrite Hattr.
Qed.

Lemma predict_new_data_keeps_shortcut_witness :
  let σ := ((c ← TimeSeriesDBSCAN (default_config (VCallable zero_dist));
             fit one_cluster_fit c 1%positive) store0).1 in
  let σ' := (_predict one_cluster_fit 4%positive 3%positive σ).1 in
  _predict one_cluster_fit 4%positive 1%positive σ'
    = (σ', Ok (VIntArray [0; 0]%Z)).
Proof.
  cbn zeta.
  apply (predict_new_data_keeps_shortcut one_cluster_fit _ 4%positive
           1%positive (VIntArray [0; 0]%Z) 3%positive);
    vm_compute; reflexivity.
Defined.

Lemma tags_stable_witness :
  let c := default_config (VPairwise pairwise_tags_equal_length zero_dist) in
  let σ := (TimeSeriesDBSCAN c store0).1 in
  let σ' := (fit one_cluster_fit 4%positive 1%positive σ).1 in
  get_tag 4%positive "capability:unequal_length" σ'
    = (σ', Ok (TagBool false)).
Proof.
  cbn zeta.
  set (c := default_config (VPairwise pairwise_tags_equal_length zero_dist)).
  set (σ := (TimeSeriesDBSCAN c store0).1).
  apply (tags_stable one_cluster_fit 4%positive c true _
           "capability:unequal_length").
  apply (life_fit_ok _ _ _ false σ 1%positive _ 4%positive).
  - apply (life_new _ _ _ store0). reflexivity.
  - vm_compute; reflexivity.
Defined.

(** When the refit of [_predict] fails in the distance, the exception
    leaves [_predict] unwrapped, after the warning has been emitted. *)
Theorem predict_new_data_error_propagates
    sklearn_fit σ self X0 X p0 p c e :
  attr σ self "_X" = Some (VRef X0) →
  X ≠ X0 →
  panel_at σ X0 = Some p0 →
  panel_at σ X = Some p →
  has_config σ self c →
  applied (distance c) (Some (merge_panels p0 p)) = Err e →
  ∃ σ' all_X,
    _predict sklearn_fit self X σ = (σ', Err e) ∧
    heap σ !! all_X = None ∧
    trace σ' = trace σ ++
      EvWarn refit_warning self :: call_events (distance c) all_X.
Proof.
  intros HX Hne Hp0 Hp (i & Hi & Hc) He.
  rewrite (_predict_refit _ _ _ X0 X p0 p) by done.
  destruct σ as [h tr]. cbn [heap trace] in *.
  set (a := fresh (dom h)).
  set (h1 := <[a := OPanel (merge_panels p0 p)]> h).
  set (cl := fresh (dom h1)).
  set (i0 := Instance (init_attrs c ∅) (init_tags (distance c))).
  set (h2 := <[cl := OInstance i0]> h1).
  assert (Ha : h !! a = None) by apply fresh_not_live.
  assert (Hcla : cl ≠ a).
  { apply fresh_ne_live. unfold h1. rewrite lookup_insert_eq. eauto. }
  assert (Hself : a ≠ self).
  { apply fresh_ne_live. by apply (instance_is_live _ _ _ Hi). }
  erewrite bind_ok.
  2:{ unfold clone. erewrite bind_ok; [apply construct_ok |].
      apply has_config_get_params. exists i. split; [| done].
      unfold h1. rewrite instance_at_insert_ne by done. exact Hi. }
  cbn [heap trace]. fold h1 cl i0 h2.
  rewrite bind_eq.
  erewrite fit_run; [| apply instance_at_insert_eq | apply init_attrs_config].
  unfold fit_outcome. cbn [heap trace].
  assert (Hpa : panel_at (State h2 (tr ++ [EvWarn refit_warning self])) a
                = Some (merge_panels p0 p)).
  { unfold panel_at, h2, h1. cbn [heap].
    by rewrite lookup_insert_ne, lookup_insert_eq by done. }
  rewrite Hpa, He.
  eexists _, a. split; [reflexivity |]. split; [done |].
  cbn [trace]. by rewrite <- app_assoc.
Qed.

Lemma predict_new_data_error_propagates_witness :
  let c := default_config (VCallable no_missing_dist) in
  let σ := ((a ← TimeSeriesDBSCAN c; fit one_cluster_fit a 1%positive)
              store0).1 in
  ∃ σ' all_X,
    _predict one_cluster_fit 4%positive 3%positive σ
      = (σ', Err (Raised "ValueError")) ∧
    trace σ' = trace σ ++
      [ EvWarn refit_warning 4%positive;
        EvCall (VCallable no_missing_dist) all_X ].
Proof.
  cbn zeta.
  set (c := default_config (VCallable no_missing_dist)).
  set (σ := ((a ← TimeSeriesDBSCAN c; fit one_cluster_fit a 1%positive)
               store0).1).
  destruct (predict_new_data_error_propagates one_cluster_fit σ 4%positive
              1%positive 3%positive panel_ab panel_bc c (Raised "ValueError"))
    as (σ' & all_X & Hret & _ & Htr).
  - vm_compute; reflexivity.
  - discriminate.
  - vm_compute; reflexivity.
  - vm_compute; reflexivity.
  - eexists. split; [vm_compute; reflexivity |].
    repeat split; vm_compute; reflexivity.
  - reflexivity.
  - exists σ', all_X. split; [exact Hret | exact Htr].
Defined.
